(** * matrix-react-sdk: key-export dialog, secure-backup panel, OIDC helpers

    A shallow embedding of
      - [src/utils/oidc/authorize.ts],
      - [src/async-components/views/dialogs/security/ExportE2eKeysDialog.tsx],
      - [src/components/views/settings/SecureBackupPanel.tsx].

    The three files are glue around the matrix-js-sdk: they call into the SDK,
    thread its answers into component state and guard late continuations with
    an [unmounted] flag.  The embedding keeps that shape.  A function of the
    source becomes a [task]: a computation over the component instance that
    settles like a promise (fulfilled or rejected) and records, in order, every
    call it makes to the outside (SDK, browser, props callbacks, [setState]).
    What the outside answers is a parameter ([Env] records), so every theorem
    holds for all behaviours of the SDK. *)

From Stdlib Require Import ZArith.
From Stdlib.Strings Require Import Byte.
From stdpp Require Import base option list strings gmap.

Open Scope string_scope.
Open Scope list_scope.

(** ** JavaScript values shared by the three files *)

(** A thrown value.  The code reads [e.friendlyText] (absent on a plain
    [Error]) and otherwise only logs the error. *)
Record JsError : Type := mkError {
  message : string;
  friendlyText : option string
}.

(** How a promise (or a call that may throw) ends. *)
Inductive settled (A : Type) : Type :=
| Fulfilled (a : A)
| Rejected (e : JsError).
Arguments Fulfilled {A} a.
Arguments Rejected {A} e.

Definition is_fulfilled {A} (r : settled A) : bool :=
  match r with Fulfilled _ => true | Rejected _ => false end.

(** ** Tasks

    [task I F A] runs on an instance [I], settles with an [A] or an error,
    and emits effects [F].  The effects of a sequence are the effects of its
    parts in program order. *)
Definition task (I F A : Type) : Type := I -> settled A * I * list F.

Section Task.
Context {I F : Type}.

Definition pure {A} (a : A) : task I F A := fun i => (Fulfilled a, i, []).

Definition throw {A} (e : JsError) : task I F A := fun i => (Rejected e, i, []).

Definition bind {A B} (m : task I F A) (k : A -> task I F B) : task I F B :=
  fun i =>
    match m i with
    | (Fulfilled a, i', l) =>
        match k a i' with (r, i'', l') => (r, i'', l ++ l') end
    | (Rejected e, i', l) => (Rejected e, i', l)
    end.

(** [try { m } catch (e) { h e }], and [p.catch(h)] on a promise chain. *)
Definition try_catch {A} (m : task I F A) (h : JsError -> task I F A) : task I F A :=
  fun i =>
    match m i with
    | (Fulfilled a, i', l) => (Fulfilled a, i', l)
    | (Rejected e, i', l) =>
        match h e i' with (r, i'', l') => (r, i'', l ++ l') end
    end.

(** A computation of the program itself that returns or throws. *)
Definition settle {A} (r : settled A) : task I F A := fun i => (r, i, []).

(** A call to the outside whose result is not used. *)
Definition emit (f : F) : task I F unit := fun i => (Fulfilled tt, i, [f]).

(** A call to the outside that answers [r] (it throws or rejects when [r]
    is a rejection). *)
Definition call {A} (f : F) (r : settled A) : task I F A := fun i => (r, i, [f]).

(** [await] on a call to the outside: the call is made, the event loop runs
    whatever else is due while it is pending ([meanwhile], on the instance),
    and the task resumes with the answer. *)
Definition await {A} (meanwhile : I -> I) (f : F) (r : settled A) : task I F A :=
  fun i => (r, meanwhile i, [f]).

(** Reading and writing fields of [this]. *)
Definition read {A} (g : I -> A) : task I F A := fun i => (Fulfilled (g i), i, []).
Definition modify (g : I -> I) : task I F unit := fun i => (Fulfilled tt, g i, []).

Definition outcome {A} (x : settled A * I * list F) : settled A := x.1.1.
Definition final {A} (x : settled A * I * list F) : I := x.1.2.
Definition effects {A} (x : settled A * I * list F) : list F := x.2.

(** The run [x], with the effects [l] in front of its own. *)
Definition after {A} (l : list F) (x : settled A * I * list F) : settled A * I * list F :=
  (outcome x, final x, l ++ effects x).
End Task.

#[global] Instance task_ret {I F} : MRet (task I F) := @pure I F.
#[global] Instance task_bind {I F} : MBind (task I F) := fun A B k m => bind m k.

(** Unfolding the task combinators. *)
Ltac run_task :=
  unfold mbind, mret, task_bind, task_ret, bind, try_catch, pure, throw, settle, emit,
    call, await, read, modify, outcome, final, effects;
  simpl.

(** Membership in an effect list that is written out. *)
Ltac absent :=
  let H := fresh "Hin" in
  intros H;
  repeat (apply elem_of_cons in H as [H|H]; [discriminate H |]);
  exact (not_elem_of_nil _ H).

(** The goal follows from a membership that cannot be. *)
Ltac never :=
  let H := fresh "Hin" in
  intros H; exfalso; revert H; absent.

Ltac present :=
  repeat first [apply list_elem_of_here | apply list_elem_of_further].

(** * [src/utils/oidc/authorize.ts] *)
Module Oidc.

(** Modelled from the spec: the type [QueryDict] is declared in matrix-js-sdk
    ([matrix-js-sdk/src/utils]), outside this repository.  A query dictionary
    maps parameter names to JavaScript values; an absent key reads as
    [undefined].  The values cover what the dictionary of a parsed query
    string can hold (a string, or an array of strings for a repeated
    parameter) and every other kind of value that the check in
    [getCodeAndStateFromQueryParams] tells apart from a string. *)
Inductive QueryValue : Type :=
| QUndefined
| QNull
| QBool (b : bool)
| QNumber (n : Z)
| QString (s : string)
| QArray (l : list string).

Abbreviation QueryDict := (gmap string QueryValue).

(** [queryParams[k]] *)
Definition prop (q : QueryDict) (k : string) : QueryValue :=
  default QUndefined (q !! k).

(** JavaScript truthiness, as [!v] uses it. *)
Definition truthy (v : QueryValue) : bool :=
  match v with
  | QUndefined | QNull => false
  | QBool b => b
  | QNumber n => negb (n =? 0)%Z
  | QString s => negb (String.eqb s "")
  | QArray _ => true
  end.

Definition typeof (v : QueryValue) : string :=
  match v with
  | QUndefined => "undefined"
  | QNull => "object"
  | QBool _ => "boolean"
  | QNumber _ => "number"
  | QString _ => "string"
  | QArray _ => "object"
  end.

(** The value of an expression TypeScript has narrowed to [string]. *)
Definition as_string (v : QueryValue) : string :=
  match v with QString s => s | _ => "" end.

Definition invalid_query_error : JsError :=
  mkError "Invalid query parameters for OIDC native login. `code` and `state` are required." None.

Definition getCodeAndStateFromQueryParams (queryParams : QueryDict)
  : settled (string * string) :=
  let code := prop queryParams "code" in
  let state := prop queryParams "state" in
  if negb (truthy code) || negb (String.eqb (typeof code) "string")
     || negb (truthy state) || negb (String.eqb (typeof state) "string")
  then Rejected invalid_query_error
  else Fulfilled (as_string code, as_string state).

(** What [completeAuthorizationCodeGrant] resolves with (SDK types; the
    fields the helper reads, and the refresh token it leaves alone). *)
Record OidcClientSettings : Type := {
  clientId : string;
  issuer : string
}.

Record BearerTokenResponse : Type := {
  access_token : string;
  refresh_token : option string
}.

Record GrantResult : Type := {
  oidcClientSettings : OidcClientSettings;
  tokenResponse : BearerTokenResponse;
  homeserverUrl : string;
  identityServerUrl : option string
}.

(** What [completeOidcLogin] resolves with. *)
Record LoginResult : Type := {
  r_homeserverUrl : string;
  r_identityServerUrl : option string;
  r_accessToken : string;
  r_clientId : string;
  r_issuer : string
}.

(** [window.location] *)
Record Location : Type := {
  origin : string;
  href : string
}.

Section WithMetadata.
(** The issuer metadata inside [OidcClientConfig]: opaque to this file. *)
Context {Metadata : Type}.

Record OidcClientConfig : Type := { metadata : Metadata }.

(** The argument object of [generateOidcAuthorizationUrl]. *)
Record AuthorizationParams : Type := {
  a_metadata : Metadata;
  a_redirectUri : string;
  a_clientId : string;
  a_homeserverUrl : string;
  a_identityServerUrl : option string;
  a_nonce : string
}.

Inductive Effect : Type :=
| RandomString (len : nat)
| GenerateOidcAuthorizationUrl (p : AuthorizationParams)
| AssignLocationHref (url : string)
| CompleteAuthorizationCodeGrant (code state : string).

(** The SDK as this file sees it. *)
Record Env : Type := {
  randomString : nat -> string;
  generateOidcAuthorizationUrl : AuthorizationParams -> settled string;
  completeAuthorizationCodeGrant : string -> string -> settled GrantResult
}.

Variable sdk : Env.

Definition startOidcLogin (delegatedAuthConfig : OidcClientConfig)
    (clientId_ homeserverUrl_ : string) (identityServerUrl_ : option string)
  : task Location Effect unit :=
  redirectUri ← read origin;
  nonce ← call (RandomString 10) (Fulfilled (randomString sdk 10));
  let params := {| a_metadata := metadata delegatedAuthConfig;
                   a_redirectUri := redirectUri;
                   a_clientId := clientId_;
                   a_homeserverUrl := homeserverUrl_;
                   a_identityServerUrl := identityServerUrl_;
                   a_nonce := nonce |} in
  authorizationUrl ← call (GenerateOidcAuthorizationUrl params)
                          (generateOidcAuthorizationUrl sdk params);
  emit (AssignLocationHref authorizationUrl);;
  modify (fun w => {| origin := origin w; href := authorizationUrl |}).

Definition completeOidcLogin (queryParams : QueryDict)
  : task Location Effect LoginResult :=
  '(code, state) ← settle (getCodeAndStateFromQueryParams queryParams);
  g ← call (CompleteAuthorizationCodeGrant code state)
           (completeAuthorizationCodeGrant sdk code state);
  mret {| r_homeserverUrl := homeserverUrl g;
          r_identityServerUrl := identityServerUrl g;
          r_accessToken := access_token (tokenResponse g);
          r_clientId := clientId (oidcClientSettings g);
          r_issuer := issuer (oidcClientSettings g) |}.
End WithMetadata.
Arguments Effect : clear implicits.
Arguments Env : clear implicits.
Arguments OidcClientConfig : clear implicits.
Arguments AuthorizationParams : clear implicits.

End Oidc.

(** * [src/async-components/views/dialogs/security/ExportE2eKeysDialog.tsx] *)
Module ExportE2eKeysDialog.

Inductive Phase : Type := Edit | Exporting.

Definition Phase_eqb (a b : Phase) : bool :=
  match a, b with
  | Edit, Edit | Exporting, Exporting => true
  | _, _ => false
  end.

Record IState : Type := {
  phase : Phase;
  errStr : option string;
  passphrase1 : string;
  passphrase2 : string
}.

(** [AnyPassphrase]: the keys of [IState] that start with "passphrase". *)
Inductive AnyPassphrase : Type := key_passphrase1 | key_passphrase2.

(** The two [Field] components the refs can point to. *)
Inductive Field : Type := PassphraseField | PassphraseConfirmField.

(** The component instance: its private fields and its React state.  A ref
    is [None] while it is [null]. *)
Record Dialog : Type := {
  fieldPassword : option Field;
  fieldPasswordConfirm : option Field;
  unmounted : bool;
  state : IState
}.

Definition constructor : Dialog :=
  {| fieldPassword := None;
     fieldPasswordConfirm := None;
     unmounted := false;
     state := {| phase := Edit; errStr := None; passphrase1 := ""; passphrase2 := "" |} |}.

(** The object given to [setState]: a field is [None] when the object does
    not have it. *)
Record Patch : Type := {
  p_phase : option Phase;
  p_errStr : option (option string);
  p_passphrase1 : option string;
  p_passphrase2 : option string
}.

Definition apply_patch (p : Patch) (s : IState) : IState :=
  {| phase := default (phase s) (p_phase p);
     errStr := default (errStr s) (p_errStr p);
     passphrase1 := default (passphrase1 s) (p_passphrase1 p);
     passphrase2 := default (passphrase2 s) (p_passphrase2 p) |}.

(** The options object of [Field.validate]. *)
Record ValidateOpts : Type := {
  allowEmpty : bool;
  focused : option bool
}.

(** [new Blob(parts, { type })] *)
Record Blob : Type := {
  parts : list (list byte);
  type : string
}.

(** Everything the dialog does to the outside. *)
Inductive Effect : Type :=
| PreventDefault
| FieldValidate (field : Field) (opts : ValidateOpts)
| FieldFocus (field : Field)
| ExportRoomKeys
| EncryptMegolmKeyFile (data password : string)
| FileSaverSaveAs (blob : Blob) (filename : string)
| OnFinished (doExport : option bool)
| LoggerError (msg : string) (e : JsError)
| SetState (p : Patch).

(** What React can deliver to the component while one of its promises is
    pending. *)
Inductive Interleaved : Type :=
| Unmount
| PassphraseChanged (phrase : AnyPassphrase) (value : string).

Section WithKeys.
(** The exported sessions ([IMegolmSessionData[]]): opaque to the dialog. *)
Context {RoomKeys : Type}.

(** The outside as the dialog sees it: the SDK client, the Megolm export
    module, FileSaver, [JSON.stringify], the translation function, what a
    field's [validate] resolves with ([boolean | undefined]), and what React
    delivers while a call is pending. *)
Record Env : Type := {
  exportRoomKeys : settled RoomKeys;
  JSON_stringify : RoomKeys -> string;
  encryptMegolmKeyFile : string -> string -> settled (list byte);
  saveAs : Blob -> string -> settled unit;
  validate : Field -> ValidateOpts -> option bool;
  _t : string -> string;
  meanwhile : Effect -> list Interleaved
}.

Variable env : Env.

Abbreviation Task := (task Dialog Effect).

(** [this.setState(p)]: the call is recorded and the object is merged into
    the state. *)
Definition setState (p : Patch) : Task unit :=
  emit (SetState p);;
  modify (fun d => {| fieldPassword := fieldPassword d;
                      fieldPasswordConfirm := fieldPasswordConfirm d;
                      unmounted := unmounted d;
                      state := apply_patch p (state d) |}).

Definition componentWillUnmount : Task unit :=
  modify (fun d => {| fieldPassword := fieldPassword d;
                      fieldPasswordConfirm := fieldPasswordConfirm d;
                      unmounted := true;
                      state := state d |}).

Definition onPassphraseChange (value : string) (phrase : AnyPassphrase) : Task unit :=
  setState match phrase with
           | key_passphrase1 =>
               {| p_phase := None; p_errStr := None;
                  p_passphrase1 := Some value; p_passphrase2 := None |}
           | key_passphrase2 =>
               {| p_phase := None; p_errStr := None;
                  p_passphrase1 := None; p_passphrase2 := Some value |}
           end.

(** The instance after React has delivered [a] to its handler. *)
Definition deliver (d : Dialog) (a : Interleaved) : Dialog :=
  match a with
  | Unmount => final (componentWillUnmount d)
  | PassphraseChanged phrase value => final (onPassphraseChange value phrase d)
  end.

(** The instance once the call [f] has settled: React has delivered, in
    order, what was due while it was pending. *)
Definition pending (f : Effect) (d : Dialog) : Dialog :=
  foldl deliver d (meanwhile env f).

(** [await] of the call [f], which settles with [r]. *)
Definition awaiting {A} (f : Effect) (r : settled A) : Task A :=
  await (pending f) f r.

(** [!valid] for [valid : boolean | undefined] *)
Definition not_valid (valid : option bool) : bool :=
  negb (default false valid).

(** The [for ... of] loop of [verifyFieldsBeforeSubmit]. *)
Fixpoint validate_fields (fields : list (option Field)) (invalidFields : list Field)
  : Task (list Field) :=
  match fields with
  | [] => mret invalidFields
  | None :: rest => validate_fields rest invalidFields
  | Some field :: rest =>
      let opts := {| allowEmpty := false; focused := None |} in
      valid ← awaiting (FieldValidate field opts) (Fulfilled (validate env field opts));
      if not_valid valid
      then validate_fields rest (invalidFields ++ [field])
      else validate_fields rest invalidFields
  end.

Definition verifyFieldsBeforeSubmit : Task bool :=
  fp ← read fieldPassword;
  fc ← read fieldPasswordConfirm;
  let fieldsInDisplayOrder := [fp; fc] in
  invalidFields ← validate_fields fieldsInDisplayOrder [];
  match invalidFields with
  | [] => mret true
  | first :: _ =>
      emit (FieldFocus first);;
      emit (FieldValidate first {| allowEmpty := false; focused := Some true |});;
      mret false
  end.

(** [e.friendlyText || _t("Unknown error")] *)
Definition error_text (e : JsError) : string :=
  match friendlyText e with
  | Some s => if String.eqb s "" then _t env "Unknown error" else s
  | None => _t env "Unknown error"
  end.

(** The [.catch] callback of the chain in [startExport]. *)
Definition startExport_failed (e : JsError) : Task unit :=
  emit (LoggerError "Error exporting e2e keys:" e);;
  u ← read unmounted;
  if u : bool then mret tt
  else setState {| p_errStr := Some (Some (error_text e)); p_phase := Some Edit;
                   p_passphrase1 := None; p_passphrase2 := None |}.

(** [startExport] starts the promise chain and sets the state in the same
    turn; the chain's callbacks run in later turns.  The task lists the steps
    in the order they execute: the synchronous [setState] first, then the
    chain. *)
Definition startExport (passphrase : string) : Task unit :=
  setState {| p_errStr := Some None; p_phase := Some Exporting;
              p_passphrase1 := None; p_passphrase2 := None |};;
  try_catch
    (k ← awaiting ExportRoomKeys (exportRoomKeys env);
     let data := JSON_stringify env k in
     f ← awaiting (EncryptMegolmKeyFile data passphrase)
                  (encryptMegolmKeyFile env data passphrase);
     let blob := {| parts := [f]; type := "text/plain;charset=us-ascii" |} in
     call (FileSaverSaveAs blob "element-keys.txt") (saveAs env blob "element-keys.txt");;
     emit (OnFinished (Some true)))
    startExport_failed.

Definition onPassphraseFormSubmit : Task unit :=
  emit PreventDefault;;
  ok ← verifyFieldsBeforeSubmit;
  if negb ok then mret tt
  else
    u ← read unmounted;
    if u : bool then mret tt
    else
      passphrase ← read (fun d => passphrase1 (state d));
      startExport passphrase.

Definition onCancelClick : Task bool :=
  emit PreventDefault;;
  emit (OnFinished (Some false));;
  mret false.

(** What [render] decides: the props that depend on the state. *)
Record View : Type := {
  error_text_shown : option string;
  passphrase_value : string;
  passphrase_disabled : bool;
  confirm_password : string;
  confirm_value : string;
  confirm_disabled : bool;
  submit_disabled : bool;
  cancel_disabled : bool
}.

Definition render (d : Dialog) : View :=
  let disableForm := Phase_eqb (phase (state d)) Exporting in
  {| error_text_shown := errStr (state d);
     passphrase_value := passphrase1 (state d);
     passphrase_disabled := disableForm;
     confirm_password := passphrase1 (state d);
     confirm_value := passphrase2 (state d);
     confirm_disabled := disableForm;
     submit_disabled := disableForm;
     cancel_disabled := disableForm |}.

(** What the user can do on the rendered form. *)
Inductive UserAction : Type :=
| TypePassphrase (value : string)
| TypeConfirmation (value : string)
| Submit
| Cancel.

(** The handler [render] has wired to the control runs, unless the control
    is rendered disabled: the browser does not deliver events of a disabled
    control (a disabled input takes no text, a disabled submit input submits
    nothing, a disabled button is not clicked). *)
Definition user (a : UserAction) : Task unit :=
  v ← read render;
  match a with
  | TypePassphrase value =>
      if passphrase_disabled v then mret tt else onPassphraseChange value key_passphrase1
  | TypeConfirmation value =>
      if confirm_disabled v then mret tt else onPassphraseChange value key_passphrase2
  | Submit =>
      if submit_disabled v then mret tt else onPassphraseFormSubmit
  | Cancel =>
      if cancel_disabled v then mret tt else (onCancelClick;; mret tt)
  end.

End WithKeys.
Arguments Env : clear implicits.

End ExportE2eKeysDialog.

(** * [src/components/views/settings/SecureBackupPanel.tsx] *)
Module SecureBackupPanel.

(** [CryptoEvent] members the panel listens to. *)
Inductive CryptoEvent : Type := KeyBackupStatus | KeyBackupSessionsRemaining.

(** What [getSessionBackupPrivateKey] can hand back: a [Uint8Array], or
    something else that is not one. *)
Inductive PrivateKey : Type :=
| KeyBytes (b : list byte)
| KeyOther (s : string).

Definition instanceof_Uint8Array (k : option PrivateKey) : bool :=
  match k with Some (KeyBytes _) => true | _ => false end.

(** Async methods of the panel that the source calls without [await]. *)
Inductive Background : Type := GetUpdatedDiagnostics | CheckKeyBackupStatus.

(** The props object of the confirmation [QuestionDialog] (without its
    [onFinished] callback, which is [deleteBackup_onFinished] below). *)
Record QuestionDialogProps : Type := {
  title : string;
  description : string;
  button : string;
  danger : bool
}.

Section WithSdkTypes.
(** SDK types the panel stores and passes on without looking inside, except
    for the [version] of a backup. *)
Context {IKeyBackupInfo TrustInfo : Type}.

Record IState : Type := {
  loading : bool;
  error : bool;
  backupKeyStored : option bool;
  backupKeyCached : option bool;
  backupKeyWellFormed : option bool;
  secretStorageKeyInAccount : option bool;
  secretStorageReady : option bool;
  backupInfo : option IKeyBackupInfo;
  backupSigStatus : option TrustInfo;
  sessionsRemaining : Z
}.

Record Panel : Type := {
  unmounted : bool;
  state : IState
}.

Definition constructor : Panel :=
  {| unmounted := false;
     state := {| loading := true;
                 error := false;
                 backupKeyStored := None;
                 backupKeyCached := None;
                 backupKeyWellFormed := None;
                 secretStorageKeyInAccount := None;
                 secretStorageReady := None;
                 backupInfo := None;
                 backupSigStatus := None;
                 sessionsRemaining := 0 |} |}.

(** The object given to [setState]; a field is [None] when the object does
    not have it. *)
Record Patch : Type := {
  p_loading : option bool;
  p_error : option bool;
  p_backupKeyStored : option (option bool);
  p_backupKeyCached : option (option bool);
  p_backupKeyWellFormed : option (option bool);
  p_secretStorageKeyInAccount : option (option bool);
  p_secretStorageReady : option (option bool);
  p_backupInfo : option (option IKeyBackupInfo);
  p_backupSigStatus : option (option TrustInfo);
  p_sessionsRemaining : option Z
}.

(** [{ loading }] *)
Definition patch_loading (l : bool) : Patch :=
  {| p_loading := Some l; p_error := None; p_backupKeyStored := None;
     p_backupKeyCached := None; p_backupKeyWellFormed := None;
     p_secretStorageKeyInAccount := None; p_secretStorageReady := None;
     p_backupInfo := None; p_backupSigStatus := None; p_sessionsRemaining := None |}.

(** [{ loading: false, error, backupInfo, backupSigStatus }] *)
Definition patch_status (err : bool) (info : option IKeyBackupInfo) (sig : option TrustInfo)
  : Patch :=
  {| p_loading := Some false; p_error := Some err; p_backupKeyStored := None;
     p_backupKeyCached := None; p_backupKeyWellFormed := None;
     p_secretStorageKeyInAccount := None; p_secretStorageReady := None;
     p_backupInfo := Some info; p_backupSigStatus := Some sig; p_sessionsRemaining := None |}.

(** The five diagnostics of [getUpdatedDiagnostics]. *)
Definition patch_diagnostics (stored cached wellFormed inAccount ready : bool) : Patch :=
  {| p_loading := None; p_error := None; p_backupKeyStored := Some (Some stored);
     p_backupKeyCached := Some (Some cached); p_backupKeyWellFormed := Some (Some wellFormed);
     p_secretStorageKeyInAccount := Some (Some inAccount);
     p_secretStorageReady := Some (Some ready);
     p_backupInfo := None; p_backupSigStatus := None; p_sessionsRemaining := None |}.

(** [{ sessionsRemaining }] *)
Definition patch_sessions (n : Z) : Patch :=
  {| p_loading := None; p_error := None; p_backupKeyStored := None;
     p_backupKeyCached := None; p_backupKeyWellFormed := None;
     p_secretStorageKeyInAccount := None; p_secretStorageReady := None;
     p_backupInfo := None; p_backupSigStatus := None; p_sessionsRemaining := Some n |}.

Definition apply_patch (p : Patch) (s : IState) : IState :=
  {| loading := default (loading s) (p_loading p);
     error := default (error s) (p_error p);
     backupKeyStored := default (backupKeyStored s) (p_backupKeyStored p);
     backupKeyCached := default (backupKeyCached s) (p_backupKeyCached p);
     backupKeyWellFormed := default (backupKeyWellFormed s) (p_backupKeyWellFormed p);
     secretStorageKeyInAccount :=
       default (secretStorageKeyInAccount s) (p_secretStorageKeyInAccount p);
     secretStorageReady := default (secretStorageReady s) (p_secretStorageReady p);
     backupInfo := default (backupInfo s) (p_backupInfo p);
     backupSigStatus := default (backupSigStatus s) (p_backupSigStatus p);
     sessionsRemaining := default (sessionsRemaining s) (p_sessionsRemaining p) |}.

(** What [checkKeyBackup] resolves with when it is not [null]. *)
Record KeyBackupCheck : Type := {
  kb_backupInfo : option IKeyBackupInfo;
  kb_trustInfo : option TrustInfo
}.

(** Everything the panel does to the outside. *)
Inductive Effect : Type :=
| SetState (p : Patch)
| ClientOn (ev : CryptoEvent)
| ClientRemoveListener (ev : CryptoEvent)
| CheckKeyBackup
| GetKeyBackupVersion
| IsKeyBackupTrusted (info : IKeyBackupInfo)
| GetCrypto
| IsKeyBackupKeyStored
| GetSessionBackupPrivateKey
| SecretStorageHasKey
| IsSecretStorageReady
| LoggerLog (msg : string) (e : JsError)
| Start (t : Background)
| CreateQuestionDialog (props : QuestionDialogProps)
| DeleteKeyBackupVersion (version : option string).

(** What can reach the component while one of its promises is pending: React
    unmounts it, or another handler or task of the panel sets state. *)
Inductive Interleaved : Type :=
| Unmount
| Update (p : Patch).

(** The outside as the panel sees it: the client that
    [MatrixClientPeg.safeGet()] returns ([clientPresent] tells whether
    [MatrixClientPeg.get()] still has one at unmount), its crypto and secret
    storage, the modal manager and the translation function.  A call that
    throws is a call that rejects.  [questionDialog] is the answer the
    confirmation dialog finishes with, [None] if it never finishes;
    [meanwhile] is what reaches the panel while a call is pending. *)
Record Env : Type := {
  version : IKeyBackupInfo -> option string;
  clientPresent : bool;
  checkKeyBackup : settled (option KeyBackupCheck);
  getKeyBackupVersion : settled (option IKeyBackupInfo);
  isKeyBackupTrusted : IKeyBackupInfo -> settled TrustInfo;
  deleteKeyBackupVersion : option string -> settled unit;
  hasCrypto : bool;
  isKeyBackupKeyStored : settled (option (list string));
  getSessionBackupPrivateKey : settled (option PrivateKey);
  secretStorageHasKey : settled bool;
  isSecretStorageReady : settled bool;
  questionDialog : QuestionDialogProps -> option (option bool);
  _t : string -> string;
  meanwhile : Effect -> list Interleaved
}.

Variable env : Env.

Abbreviation Task := (task Panel Effect).

(** [this.setState(p)]: the call is recorded and the object is merged into
    the state. *)
Definition setState (p : Patch) : Task unit :=
  emit (SetState p);;
  modify (fun c => {| unmounted := unmounted c; state := apply_patch p (state c) |}).

Definition componentWillUnmount : Task unit :=
  modify (fun c => {| unmounted := true; state := state c |});;
  if clientPresent env
  then emit (ClientRemoveListener KeyBackupStatus);;
       emit (ClientRemoveListener KeyBackupSessionsRemaining)
  else mret tt.

Definition onKeyBackupSessionsRemaining (n : Z) : Task unit :=
  setState (patch_sessions n).

(** The instance after [a] has reached it. *)
Definition deliver (c : Panel) (a : Interleaved) : Panel :=
  match a with
  | Unmount => final (componentWillUnmount c)
  | Update p => final (setState p c)
  end.

(** The instance once the call [f] has settled. *)
Definition pending (f : Effect) (c : Panel) : Panel :=
  foldl deliver c (meanwhile env f).

(** [await] of the call [f], which settles with [r]. *)
Definition awaiting {A} (f : Effect) (r : settled A) : Task A :=
  await (pending f) f r.

(** An async method called without [await]: it runs as a task of its own,
    and what it does to the state reaches the caller as [Interleaved]. *)
Definition start (t : Background) : Task unit := emit (Start t).

(** [getUpdatedDiagnostics] after its last [await]. *)
Definition getUpdatedDiagnostics_resume
    (stored cached wellFormed inAccount ready : bool) : Task unit :=
  u ← read unmounted;
  if u : bool then mret tt
  else setState (patch_diagnostics stored cached wellFormed inAccount ready).

Definition getUpdatedDiagnostics : Task unit :=
  emit GetCrypto;;
  if negb (hasCrypto env) then mret tt
  else
    stored ← awaiting IsKeyBackupKeyStored (isKeyBackupKeyStored env);
    let backupKeyStored := bool_decide (is_Some stored) in
    backupKeyFromCache ← awaiting GetSessionBackupPrivateKey (getSessionBackupPrivateKey env);
    let backupKeyCached := bool_decide (is_Some backupKeyFromCache) in
    let backupKeyWellFormed := instanceof_Uint8Array backupKeyFromCache in
    secretStorageKeyInAccount ← awaiting SecretStorageHasKey (secretStorageHasKey env);
    secretStorageReady ← awaiting IsSecretStorageReady (isSecretStorageReady env);
    getUpdatedDiagnostics_resume backupKeyStored backupKeyCached backupKeyWellFormed
      secretStorageKeyInAccount secretStorageReady.

(** The [catch] block of [checkKeyBackupStatus]. *)
Definition checkKeyBackupStatus_failed (e : JsError) : Task unit :=
  emit (LoggerLog "Unable to fetch check backup status" e);;
  u ← read unmounted;
  if u : bool then mret tt
  else setState (patch_status true None None).

Definition checkKeyBackupStatus : Task unit :=
  start GetUpdatedDiagnostics;;
  try_catch
    (keyBackupResult ← awaiting CheckKeyBackup (checkKeyBackup env);
     setState (patch_status false (keyBackupResult ≫= kb_backupInfo)
                                  (keyBackupResult ≫= kb_trustInfo)))
    checkKeyBackupStatus_failed.

(** [loadBackupStatus] after the [await]s of its [try] block. *)
Definition loadBackupStatus_resume
    (backupInfo_ : option IKeyBackupInfo) (backupSigStatus_ : option TrustInfo) : Task unit :=
  u ← read unmounted;
  if u : bool then mret tt
  else setState (patch_status false backupInfo_ backupSigStatus_).

(** The [catch] block of [loadBackupStatus]. *)
Definition loadBackupStatus_failed (e : JsError) : Task unit :=
  emit (LoggerLog "Unable to fetch key backup status" e);;
  u ← read unmounted;
  if u : bool then mret tt
  else setState (patch_status true None None).

Definition loadBackupStatus : Task unit :=
  setState (patch_loading true);;
  start GetUpdatedDiagnostics;;
  try_catch
    (backupInfo_ ← awaiting GetKeyBackupVersion (getKeyBackupVersion env);
     backupSigStatus_ ← match backupInfo_ with
                        | Some info =>
                            t ← awaiting (IsKeyBackupTrusted info) (isKeyBackupTrusted env info);
                            mret (Some t)
                        | None => mret None
                        end;
     loadBackupStatus_resume backupInfo_ backupSigStatus_)
    loadBackupStatus_failed.

Definition onKeyBackupStatus : Task unit := loadBackupStatus.

Definition componentDidMount : Task unit :=
  start CheckKeyBackupStatus;;
  emit (ClientOn KeyBackupStatus);;
  emit (ClientOn KeyBackupSessionsRemaining).

Definition delete_dialog_props : QuestionDialogProps :=
  {| title := _t env "Delete Backup";
     description :=
       _t env "Are you sure? You will lose your encrypted messages if your keys are not backed up properly.";
     button := _t env "Delete Backup";
     danger := true |}.

(** [this.state.backupInfo!.version!] on a [null] backup. *)
Definition null_backup_error : JsError :=
  mkError "TypeError: Cannot read properties of null (reading 'version')" None.

(** The [onFinished] callback given to the confirmation dialog;
    [proceed] is [boolean | undefined]. *)
Definition deleteBackup_onFinished (proceed : option bool) : Task unit :=
  if negb (default false proceed) then mret tt
  else
    setState (patch_loading true);;
    info ← read (fun c => backupInfo (state c));
    match info with
    | None => throw null_backup_error
    | Some i =>
        awaiting (DeleteKeyBackupVersion (version env i))
                 (deleteKeyBackupVersion env (version env i));;
        loadBackupStatus
    end.

(** [deleteBackup] opens the dialog and returns; the callback runs when the
    dialog finishes, if it does. *)
Definition deleteBackup : Task unit :=
  answer ← awaiting (CreateQuestionDialog delete_dialog_props)
                    (Fulfilled (questionDialog env delete_dialog_props));
  match answer with
  | None => mret tt
  | Some proceed => deleteBackup_onFinished proceed
  end.

End WithSdkTypes.
Arguments IState : clear implicits.
Arguments Panel : clear implicits.
Arguments Patch : clear implicits.
Arguments KeyBackupCheck : clear implicits.
Arguments Effect : clear implicits.
Arguments Interleaved : clear implicits.
Arguments Env : clear implicits.

End SecureBackupPanel.

(** * Statements about the query parameters, in the words of the specification *)
Module OidcSpec.
Import Oidc.

(** A query parameter that cannot serve as [code] or [state]: it is absent,
    it is the empty string, or it is not a single string. *)
Definition unusable (v : option QueryValue) : Prop :=
  v = None \/ v = Some (QString "") \/ (forall s, v <> Some (QString s)).

(** The parameter [k] of [q] is the non-empty string [s]. *)
Definition nonempty_string_at (q : QueryDict) (k s : string) : Prop :=
  q !! k = Some (QString s) /\ s <> "".

End OidcSpec.

(** * Statements about the export dialog, in the words of the specification *)
Module DialogSpec.
Import ExportE2eKeysDialog.

Section WithEnv.
Context {RoomKeys : Type}.
Variable env : Env RoomKeys.

(** The options of the validation pass and of the re-validation. *)
Definition first_pass : ValidateOpts := {| allowEmpty := false; focused := None |}.
Definition second_pass : ValidateOpts := {| allowEmpty := false; focused := Some true |}.

(** The fields whose ref is set, in display order. *)
Definition present_fields (d : Dialog) : list Field :=
  omap id [fieldPassword d; fieldPasswordConfirm d].

(** The field validates in the validation pass. *)
Definition validates (f : Field) : bool :=
  default false (validate env f first_pass).

(** The instance once the validation of every present field has resolved. *)
Definition after_validation (d : Dialog) : Dialog :=
  foldl (fun d' f => pending env (FieldValidate f first_pass) d') d (present_fields d).

(** What a submission does up to the end of the validation pass. *)
Definition validation_pass (d : Dialog) : list Effect :=
  PreventDefault :: map (fun f => FieldValidate f first_pass) (present_fields d).

(** An export was started: the SDK was asked for the room keys. *)
Definition export_started (l : list Effect) : bool :=
  existsb (fun f => match f with ExportRoomKeys => true | _ => false end) l.

(** The file handed to FileSaver for the bytes [f]. *)
Definition key_file (f : list byte) : Blob :=
  {| parts := [f]; type := "text/plain;charset=us-ascii" |}.

(** The [setState] that [startExport] does in its own turn. *)
Definition now_exporting : Patch :=
  {| p_errStr := Some None; p_phase := Some Exporting;
     p_passphrase1 := None; p_passphrase2 := None |}.

(** The [setState] of the failure handler. *)
Definition back_to_edit (e : JsError) : Patch :=
  {| p_errStr := Some (Some (error_text env e)); p_phase := Some Edit;
     p_passphrase1 := None; p_passphrase2 := None |}.

(** The [setState] calls among the effects. *)
Definition state_updates (l : list Effect) : list Effect :=
  List.filter (fun f => match f with SetState _ => true | _ => false end) l.

(** A step of the export pipeline rejects with [e]. *)
Definition export_fails (passphrase : string) (e : JsError) : Prop :=
  exportRoomKeys env = Rejected e
  \/ (exists k, exportRoomKeys env = Fulfilled k
              /\ encryptMegolmKeyFile env (JSON_stringify env k) passphrase = Rejected e)
  \/ (exists k f, exportRoomKeys env = Fulfilled k
                /\ encryptMegolmKeyFile env (JSON_stringify env k) passphrase = Fulfilled f
                /\ saveAs env (key_file f) "element-keys.txt" = Rejected e).

(** The file was saved. *)
Definition export_saved (passphrase : string) : Prop :=
  exists k f, exportRoomKeys env = Fulfilled k
           /\ encryptMegolmKeyFile env (JSON_stringify env k) passphrase = Fulfilled f
           /\ saveAs env (key_file f) "element-keys.txt" = Fulfilled tt.

End WithEnv.
End DialogSpec.

(** * Statements about the backup panel, in the words of the specification *)
Module PanelSpec.
Import SecureBackupPanel.

(** The [setState] calls among the effects. *)
Definition state_updates {IKeyBackupInfo TrustInfo : Type}
    (l : list (Effect IKeyBackupInfo TrustInfo)) : list (Effect IKeyBackupInfo TrustInfo) :=
  List.filter (fun f => match f with SetState _ => true | _ => false end) l.

End PanelSpec.

(** * Concrete environments, used to run the embedding *)
Module Scenarios.

Module OidcRun.
Import Oidc.

Definition grant : GrantResult :=
  {| oidcClientSettings := {| clientId := "element-web"; issuer := "https://auth.example.org/" |};
     tokenResponse := {| access_token := "syt_token"; refresh_token := Some "syr_refresh" |};
     homeserverUrl := "https://matrix.example.org";
     identityServerUrl := Some "https://vector.im" |}.

Definition exchange_failed : JsError := mkError "Failed to exchange the code" None.

(** An SDK that accepts the code "abc" in state "xyz" and rejects the rest. *)
Definition sdk : Env string :=
  {| randomString := fun n => String.substring 0 n "q7Wm2ZpLx0Tr5Kd9";
     generateOidcAuthorizationUrl := fun p =>
       Fulfilled ("https://auth.example.org/authorize?nonce=" +:+ a_nonce p);
     completeAuthorizationCodeGrant := fun code state =>
       if String.eqb code "abc" && String.eqb state "xyz"
       then Fulfilled grant else Rejected exchange_failed |}.

Definition window : Location :=
  {| origin := "https://app.example.org"; href := "https://app.example.org/#/login" |}.

Definition config : OidcClientConfig string := {| metadata := "issuer-metadata" |}.

Definition good_query : QueryDict :=
  {[ "code" := QString "abc"; "state" := QString "xyz" ]}.

(** Well-formed parameters that the issuer does not accept. *)
Definition stale_query : QueryDict :=
  {[ "code" := QString "old"; "state" := QString "xyz" ]}.

Definition repeated_code_query : QueryDict :=
  {[ "code" := QArray ["abc"; "abc"]; "state" := QString "xyz" ]}.

End OidcRun.

Module DialogRun.
Import ExportE2eKeysDialog.

Definition bytes_of (s : string) : list byte := String.list_byte_of_string s.

(** A client with two sessions, an encryption that frames its input, and a
    FileSaver that works.  Both fields validate and nothing else happens
    while the dialog waits. *)
Definition env : Env (list string) :=
  {| exportRoomKeys := Fulfilled ["s1"; "s2"];
     JSON_stringify := fun k => "[" +:+ String.concat "," k +:+ "]";
     encryptMegolmKeyFile := fun data password =>
       Fulfilled (bytes_of ("MEGOLM(" +:+ password +:+ ")" +:+ data));
     saveAs := fun _ _ => Fulfilled tt;
     validate := fun _ _ => Some true;
     _t := fun s => s;
     meanwhile := fun _ => [] |}.

Definition crypto_failed : JsError :=
  mkError "OperationError"
    (Some "Your browser does not support the required cryptography extensions").

(** The same, with an encryption that fails. *)
Definition env_encrypt_fails : Env (list string) :=
  {| exportRoomKeys := exportRoomKeys env;
     JSON_stringify := JSON_stringify env;
     encryptMegolmKeyFile := fun _ _ => Rejected crypto_failed;
     saveAs := saveAs env;
     validate := validate env;
     _t := _t env;
     meanwhile := meanwhile env |}.

(** The same as [env], but the dialog is closed while the confirmation
    field is still validating. *)
Definition env_closed_early : Env (list string) :=
  {| exportRoomKeys := exportRoomKeys env;
     JSON_stringify := JSON_stringify env;
     encryptMegolmKeyFile := encryptMegolmKeyFile env;
     saveAs := saveAs env;
     validate := validate env;
     _t := _t env;
     meanwhile := fun f =>
       match f with
       | FieldValidate PassphraseConfirmField _ => [Unmount]
       | _ => []
       end |}.

(** The same as [env], but the confirmation does not match. *)
Definition env_mismatch : Env (list string) :=
  {| exportRoomKeys := exportRoomKeys env;
     JSON_stringify := JSON_stringify env;
     encryptMegolmKeyFile := encryptMegolmKeyFile env;
     saveAs := saveAs env;
     validate := fun f _ =>
       match f with PassphraseField => Some true | PassphraseConfirmField => Some false end;
     _t := _t env;
     meanwhile := meanwhile env |}.

(** The mounted dialog with both passphrases typed in. *)
Definition filled : Dialog :=
  {| fieldPassword := Some PassphraseField;
     fieldPasswordConfirm := Some PassphraseConfirmField;
     unmounted := false;
     state := {| phase := Edit; errStr := None;
                 passphrase1 := "correct horse"; passphrase2 := "correct horse" |} |}.

(** The same dialog while it exports. *)
Definition exporting : Dialog :=
  {| fieldPassword := Some PassphraseField;
     fieldPasswordConfirm := Some PassphraseConfirmField;
     unmounted := false;
     state := {| phase := Exporting; errStr := None;
                 passphrase1 := "correct horse"; passphrase2 := "correct horse" |} |}.

(** The filled dialog after it was closed. *)
Definition closed_while_editing : Dialog :=
  {| fieldPassword := Some PassphraseField;
     fieldPasswordConfirm := Some PassphraseConfirmField;
     unmounted := true;
     state := state filled |}.

(** The exporting dialog after it was closed. *)
Definition closed : Dialog :=
  {| fieldPassword := Some PassphraseField;
     fieldPasswordConfirm := Some PassphraseConfirmField;
     unmounted := true;
     state := state exporting |}.

End DialogRun.

Module PanelRun.
Import SecureBackupPanel.

(** A backup version as the homeserver reports it, and the SDK's verdict. *)
Record Backup : Type := { b_version : option string; b_algorithm : string }.
Record Trust : Type := { usable : bool; trusted_locally : bool }.

Definition backup1 : Backup :=
  {| b_version := Some "1"; b_algorithm := "m.megolm_backup.v1.curve25519-aes-sha2" |}.
Definition backup2 : Backup :=
  {| b_version := Some "2"; b_algorithm := "m.megolm_backup.v1.curve25519-aes-sha2" |}.

Definition verdict_old : Trust := {| usable := false; trusted_locally := false |}.
Definition verdict_new : Trust := {| usable := true; trusted_locally := true |}.

(** A client whose current backup is version 2, trusted; the user confirms
    dialogs; nothing else happens while the panel waits. *)
Definition env : Env Backup Trust :=
  {| version := b_version;
     clientPresent := true;
     checkKeyBackup :=
       Fulfilled (Some {| kb_backupInfo := Some backup2; kb_trustInfo := Some verdict_new |});
     getKeyBackupVersion := Fulfilled (Some backup2);
     isKeyBackupTrusted := fun _ => Fulfilled verdict_new;
     deleteKeyBackupVersion := fun _ => Fulfilled tt;
     hasCrypto := true;
     isKeyBackupKeyStored := Fulfilled (Some ["key1"]);
     getSessionBackupPrivateKey := Fulfilled (Some (KeyBytes [Byte.x01; Byte.x02]));
     secretStorageHasKey := Fulfilled true;
     isSecretStorageReady := Fulfilled true;
     questionDialog := fun _ => Some (Some true);
     _t := fun s => s;
     meanwhile := fun _ => [] |}.

(** The same client after the backup was deleted elsewhere, and the panel is
    closed while it asks for the backup version. *)
Definition env_gone_closed : Env Backup Trust :=
  {| version := b_version;
     clientPresent := true;
     checkKeyBackup := Fulfilled None;
     getKeyBackupVersion := Fulfilled None;
     isKeyBackupTrusted := isKeyBackupTrusted env;
     deleteKeyBackupVersion := deleteKeyBackupVersion env;
     hasCrypto := true;
     isKeyBackupKeyStored := isKeyBackupKeyStored env;
     getSessionBackupPrivateKey := getSessionBackupPrivateKey env;
     secretStorageHasKey := secretStorageHasKey env;
     isSecretStorageReady := isSecretStorageReady env;
     questionDialog := questionDialog env;
     _t := _t env;
     meanwhile := fun f => match f with GetKeyBackupVersion => [Unmount] | _ => [] end |}.

(** The same as [env], with a user who declines. *)
Definition env_declined : Env Backup Trust :=
  {| version := b_version;
     clientPresent := true;
     checkKeyBackup := checkKeyBackup env;
     getKeyBackupVersion := getKeyBackupVersion env;
     isKeyBackupTrusted := isKeyBackupTrusted env;
     deleteKeyBackupVersion := deleteKeyBackupVersion env;
     hasCrypto := true;
     isKeyBackupKeyStored := isKeyBackupKeyStored env;
     getSessionBackupPrivateKey := getSessionBackupPrivateKey env;
     secretStorageHasKey := secretStorageHasKey env;
     isSecretStorageReady := isSecretStorageReady env;
     questionDialog := fun _ => Some (Some false);
     _t := _t env;
     meanwhile := meanwhile env |}.

(** A mounted panel showing backup version 1 with the old verdict. *)
Definition loaded : Panel Backup Trust :=
  {| unmounted := false;
     state := {| loading := false;
                 error := false;
                 backupKeyStored := Some true;
                 backupKeyCached := Some true;
                 backupKeyWellFormed := Some true;
                 secretStorageKeyInAccount := Some true;
                 secretStorageReady := Some true;
                 backupInfo := Some backup1;
                 backupSigStatus := Some verdict_old;
                 sessionsRemaining := 0 |} |}.

(** The same panel after it was closed. *)
Definition closed : Panel Backup Trust :=
  {| unmounted := true; state := state loaded |}.

Definition network_error : JsError := mkError "ConnectionError: fetch failed" None.

End PanelRun.

End Scenarios.

(** * The rest of [SecureBackupPanel.tsx]: what [render] decides *)
Module SecureBackupPanelView.
Import SecureBackupPanel.

(** The methods [render] wires to the buttons of the action row. *)
Inductive Handler : Type :=
| RestoreBackup
| DeleteBackup
| StartNewBackup
| ResetSecretStorage.

Definition Handler_eqb (a b : Handler) : bool :=
  match a, b with
  | RestoreBackup, RestoreBackup
  | DeleteBackup, DeleteBackup
  | StartNewBackup, StartNewBackup
  | ResetSecretStorage, ResetSecretStorage => true
  | _, _ => false
  end.

(** An [AccessibleButton] of the action row. *)
Record Button : Type := {
  key : string;
  kind : string;
  onClick : Handler;
  caption : string
}.

(** The element [statusDescription] ends up as. *)
Inductive StatusDescription : Type :=
| StatusError (text : string)
| StatusSpinner
| StatusBackingUp (text : string)
| StatusNotBackingUp (text advice : string)
| StatusNoBackup (text advice : string).

(** [uploadStatus]: the empty string, or one of two lines; the first is the
    translated template with [sessionsRemaining] for its variable. *)
Inductive UploadStatus : Type :=
| UploadNothing
| UploadBackingUp (template : string) (sessionsRemaining : Z)
| UploadAllBackedUp (text : string).

(** The two rows of [extraDetailsTableRows]. *)
Record BackupRows : Type := {
  row_version : option string;
  row_algorithm : string
}.

(** [extraDetails] *)
Record ExtraDetails : Type := {
  uploadStatus : UploadStatus;
  trustedLocally : option string
}.

(** What [render] returns, as far as it depends on state and client. *)
Record View : Type := {
  statusDescription : StatusDescription;
  backupKeyStoredText : string;
  backupKeyCachedText : string;
  backupKeyWellFormedText : string;
  secretStorageKeyText : string;
  secretStorageText : string;
  extraDetailsTableRows : option BackupRows;
  extraDetails : option ExtraDetails;
  actionRow : option (list Button)
}.

Section WithSdkTypes.
Context {IKeyBackupInfo TrustInfo : Type}.

(** What [render] asks besides the state: the client's
    [getKeyBackupEnabled()] ([boolean | null]), [isSecureBackupRequired] of
    [utils/WellKnownUtils] for that client, and the fields [algorithm] of a
    backup and [trusted_locally] ([boolean | undefined]) of a verdict. *)
Record RenderEnv : Type := {
  getKeyBackupEnabled : option bool;
  isSecureBackupRequired : bool;
  algorithm : IKeyBackupInfo -> string;
  trusted_locally : TrustInfo -> option bool
}.

Variable env : Env IKeyBackupInfo TrustInfo.
Variable renv : RenderEnv.

(** Truthiness of a [boolean | null]. *)
Definition truthy (b : option bool) : bool := default false b.

Definition render (c : Panel IKeyBackupInfo TrustInfo) : View :=
  let s := state c in
  let enabled := truthy (getKeyBackupEnabled renv) in
  let '(status, rows, details, actions) :=
    if error s then
      (StatusError (_t env "Unable to load key backup status"), None, None, [])
    else if loading s then
      (StatusSpinner, None, None, [])
    else
      match backupInfo s with
      | Some info =>
          let '(status, restoreButtonCaption) :=
            if enabled then
              (StatusBackingUp (_t env "This session is backing up your keys."),
               _t env "Restore from Backup")
            else
              (StatusNotBackingUp
                 (_t env "This session is <b>not backing up your keys</b>, but you do have an existing backup you can restore from and add to going forward.")
                 (_t env "Connect this session to key backup before signing out to avoid losing any keys that may only be on this session."),
               _t env "Connect this session to Key Backup") in
          let upload :=
            if negb enabled then UploadNothing
            else if (0 <? sessionsRemaining s)%Z then
              UploadBackingUp (_t env "Backing up %(sessionsRemaining)s keys…")
                              (sessionsRemaining s)
            else UploadAllBackedUp (_t env "All keys backed up") in
          let trusted :=
            if truthy (backupSigStatus s ≫= trusted_locally renv) then
              Some (_t env "This backup is trusted because it has been restored on this session")
            else None in
          (status,
           Some {| row_version := version env info; row_algorithm := algorithm renv info |},
           Some {| uploadStatus := upload; trustedLocally := trusted |},
           {| key := "restore"; kind := "primary"; onClick := RestoreBackup;
              caption := restoreButtonCaption |}
           :: (if negb (isSecureBackupRequired renv)
               then [{| key := "delete"; kind := "danger"; onClick := DeleteBackup;
                        caption := _t env "Delete Backup" |}]
               else []))
      | None =>
          (StatusNoBackup
             (_t env "Your keys are <b>not being backed up from this session</b>.")
             (_t env "Back up your keys before signing out to avoid losing them."),
           None, None,
           [{| key := "setup"; kind := "primary"; onClick := StartNewBackup;
               caption := _t env "Set up" |}])
      end in
  let actions :=
    actions ++ (if truthy (secretStorageKeyInAccount s)
                then [{| key := "reset"; kind := "danger"; onClick := ResetSecretStorage;
                         caption := _t env "Reset" |}]
                else []) in
  let wellFormedText :=
    if truthy (backupKeyCached s) then
      ", " +:+ (if truthy (backupKeyWellFormed s)
                then _t env "well formed" else _t env "unexpected type")
    else "" in
  {| statusDescription := status;
     backupKeyStoredText :=
       match backupKeyStored s with
       | Some true => _t env "in secret storage"
       | _ => _t env "not stored"
       end;
     backupKeyCachedText :=
       if truthy (backupKeyCached s)
       then _t env "cached locally" else _t env "not found locally";
     backupKeyWellFormedText := wellFormedText;
     secretStorageKeyText :=
       if truthy (secretStorageKeyInAccount s)
       then _t env "in account data" else _t env "not found";
     secretStorageText :=
       if truthy (secretStorageReady s) then _t env "ready" else _t env "not ready";
     extraDetailsTableRows := rows;
     extraDetails := details;
     actionRow := match actions with [] => None | _ => Some actions end |}.

(** The buttons of a view, and whether one of them runs [h]. *)
Definition buttons (v : View) : list Button := default [] (actionRow v).

Definition offers (v : View) (h : Handler) : bool :=
  existsb (fun b => Handler_eqb (onClick b) h) (buttons v).

End WithSdkTypes.
Arguments RenderEnv : clear implicits.

End SecureBackupPanelView.

(** * The rest of [SecureBackupPanel.tsx]: the handlers of the other buttons *)
Module SecureBackupPanelActions.
Import SecureBackupPanel.

(** The dialog [startNewBackup] loads and opens. *)
Inductive AsyncDialog : Type := CreateKeyBackupDialog.

Section WithSdkTypes.
Context {IKeyBackupInfo TrustInfo : Type}.

(** What these handlers do to the outside: what the methods above do
    ([Base]), and the modal manager, [accessSecretStorage] of
    [SecurityManager] and [logger.error]. *)
Inductive Effect : Type :=
| Base (f : SecureBackupPanel.Effect IKeyBackupInfo TrustInfo)
| CreateDialogAsync (dialog : AsyncDialog) (priority static : bool)
| CreateRestoreKeyBackupDialog (priority static : bool)
| AccessSecretStorage (forceReset : bool)
| LoggerError (msg : string) (e : JsError).

(** The answers to these calls: [accessSecretStorage(func, forceReset)],
    whether the create-backup dialog ever finishes, and what reaches the
    panel while one of the two is pending. *)
Record ActionEnv : Type := {
  accessSecretStorage : bool -> settled unit;
  createKeyBackupDialog : option unit;
  meanwhile_action : Effect -> list (Interleaved IKeyBackupInfo TrustInfo)
}.

Variable env : Env IKeyBackupInfo TrustInfo.
Variable aenv : ActionEnv.

Abbreviation Task := (task (Panel IKeyBackupInfo TrustInfo) Effect).

(** A method of [SecureBackupPanel], called from here. *)
Definition base {A} (t : task (Panel IKeyBackupInfo TrustInfo)
                              (SecureBackupPanel.Effect IKeyBackupInfo TrustInfo) A)
  : Task A :=
  fun c => match t c with (r, c', l) => (r, c', map Base l) end.

Definition pending_action (f : Effect) (c : Panel IKeyBackupInfo TrustInfo)
  : Panel IKeyBackupInfo TrustInfo :=
  foldl (deliver env) c (meanwhile_action aenv f).

Definition awaiting_action {A} (f : Effect) (r : settled A) : Task A :=
  await (pending_action f) f r.

(** [{ error }] *)
Definition patch_error (err : bool) : Patch IKeyBackupInfo TrustInfo :=
  {| p_loading := None; p_error := Some err; p_backupKeyStored := None;
     p_backupKeyCached := None; p_backupKeyWellFormed := None;
     p_secretStorageKeyInAccount := None; p_secretStorageReady := None;
     p_backupInfo := None; p_backupSigStatus := None; p_sessionsRemaining := None |}.

(** [startNewBackup] opens the dialog and returns; its [onFinished]
    callback, which reloads the status, runs when the dialog finishes. *)
Definition startNewBackup : Task unit :=
  finished ← awaiting_action (CreateDialogAsync CreateKeyBackupDialog false true)
                             (Fulfilled (createKeyBackupDialog aenv));
  match finished with
  | None => mret tt
  | Some _ => base (loadBackupStatus env)
  end.

Definition restoreBackup : Task unit :=
  emit (CreateRestoreKeyBackupDialog false true).

(** The [try]/[catch] of [resetSecretStorage]: [true] when the function goes
    on after it, [false] when the [catch] block has returned from it. *)
Definition resetSecretStorage_attempt : Task bool :=
  try_catch
    (awaiting_action (AccessSecretStorage true) (accessSecretStorage aenv true);;
     mret true)
    (fun e =>
       emit (LoggerError "Error resetting secret storage" e);;
       u ← read unmounted;
       if u : bool then mret false
       else base (setState (patch_error true));; mret true).

Definition resetSecretStorage : Task unit :=
  base (setState (patch_error false));;
  goes_on ← resetSecretStorage_attempt;
  if negb goes_on then mret tt
  else
    u ← read unmounted;
    if u : bool then mret tt
    else base (loadBackupStatus env).

(** The method a button of the rendered panel runs. *)
Definition click (h : SecureBackupPanelView.Handler) : Task unit :=
  match h with
  | SecureBackupPanelView.RestoreBackup => restoreBackup
  | SecureBackupPanelView.DeleteBackup => base (deleteBackup env)
  | SecureBackupPanelView.StartNewBackup => startNewBackup
  | SecureBackupPanelView.ResetSecretStorage => resetSecretStorage
  end.

End WithSdkTypes.
Arguments Effect : clear implicits.
Arguments ActionEnv : clear implicits.

End SecureBackupPanelActions.

(** * Properties that tasks keep *)

(** The task [t] keeps [P]: when [P] holds of the instance before [t] runs,
    it holds of the instance [t] leaves. *)
Definition keeps {I F A : Type} (P : I -> Prop) (t : task I F A) : Prop :=
  forall i, P i -> P (final (t i)).

(** * Readings of effect lists used in the statements below *)
Module Readings.

(** The events the panel has registered a listener for, and those it has
    removed one for, in order. *)
Definition registered {IKeyBackupInfo TrustInfo : Type}
    (l : list (SecureBackupPanel.Effect IKeyBackupInfo TrustInfo))
  : list SecureBackupPanel.CryptoEvent :=
  omap (fun f => match f with SecureBackupPanel.ClientOn ev => Some ev | _ => None end) l.

Definition removed {IKeyBackupInfo TrustInfo : Type}
    (l : list (SecureBackupPanel.Effect IKeyBackupInfo TrustInfo))
  : list SecureBackupPanel.CryptoEvent :=
  omap (fun f => match f with
                 | SecureBackupPanel.ClientRemoveListener ev => Some ev
                 | _ => None
                 end) l.

(** A patch that sets nothing but the five diagnostics. *)
Definition only_diagnostics {IKeyBackupInfo TrustInfo : Type}
    (p : SecureBackupPanel.Patch IKeyBackupInfo TrustInfo) : Prop :=
  SecureBackupPanel.p_loading p = None
  /\ SecureBackupPanel.p_error p = None
  /\ SecureBackupPanel.p_backupInfo p = None
  /\ SecureBackupPanel.p_backupSigStatus p = None
  /\ SecureBackupPanel.p_sessionsRemaining p = None.

End Readings.

(** * More concrete environments *)
Module MoreScenarios.

Module PanelView.
Import SecureBackupPanel SecureBackupPanelView SecureBackupPanelActions.
Import Scenarios.PanelRun.

(** A client that backs up, on a homeserver that does not require secure
    backup. *)
Definition renv : RenderEnv Backup Trust :=
  {| getKeyBackupEnabled := Some true;
     isSecureBackupRequired := false;
     algorithm := b_algorithm;
     SecureBackupPanelView.trusted_locally :=
       fun t => Some (Scenarios.PanelRun.trusted_locally t) |}.

(** The reset of the secret storage is cancelled by the user; the dialog
    for a new backup finishes; nothing else happens meanwhile. *)
Definition reset_cancelled : JsError := mkError "Secret storage creation canceled" None.

Definition aenv : ActionEnv Backup Trust :=
  {| accessSecretStorage := fun _ => Rejected reset_cancelled;
     createKeyBackupDialog := Some tt;
     meanwhile_action := fun _ => [] |}.

(** A client whose backup cannot be fetched or deleted. *)
Definition env_offline : Env Backup Trust :=
  {| version := b_version;
     clientPresent := true;
     checkKeyBackup := Rejected network_error;
     getKeyBackupVersion := Rejected network_error;
     isKeyBackupTrusted := isKeyBackupTrusted env;
     deleteKeyBackupVersion := fun _ => Rejected network_error;
     hasCrypto := true;
     isKeyBackupKeyStored := isKeyBackupKeyStored env;
     getSessionBackupPrivateKey := Rejected network_error;
     secretStorageHasKey := secretStorageHasKey env;
     isSecretStorageReady := isSecretStorageReady env;
     questionDialog := questionDialog env;
     _t := _t env;
     meanwhile := meanwhile env |}.

(** A client without a crypto module. *)
Definition env_no_crypto : Env Backup Trust :=
  {| version := b_version;
     clientPresent := true;
     checkKeyBackup := checkKeyBackup env;
     getKeyBackupVersion := getKeyBackupVersion env;
     isKeyBackupTrusted := isKeyBackupTrusted env;
     deleteKeyBackupVersion := deleteKeyBackupVersion env;
     hasCrypto := false;
     isKeyBackupKeyStored := isKeyBackupKeyStored env;
     getSessionBackupPrivateKey := getSessionBackupPrivateKey env;
     secretStorageHasKey := secretStorageHasKey env;
     isSecretStorageReady := isSecretStorageReady env;
     questionDialog := questionDialog env;
     _t := _t env;
     meanwhile := meanwhile env |}.

(** A panel that has loaded and found no backup. *)
Definition empty : Panel Backup Trust :=
  {| unmounted := false;
     state := {| loading := false;
                 error := false;
                 backupKeyStored := Some false;
                 backupKeyCached := Some false;
                 backupKeyWellFormed := Some false;
                 secretStorageKeyInAccount := Some false;
                 secretStorageReady := Some false;
                 backupInfo := None;
                 backupSigStatus := None;
                 sessionsRemaining := 0 |} |}.

End PanelView.

Module OidcMoreRun.
Import Oidc.

(** An SDK whose issuer cannot be reached. *)
Definition discovery_failed : JsError := mkError "Failed to fetch issuer metadata" None.

Definition sdk_unreachable : Env string :=
  {| randomString := randomString Scenarios.OidcRun.sdk;
     generateOidcAuthorizationUrl := fun _ => Rejected discovery_failed;
     completeAuthorizationCodeGrant :=
       completeAuthorizationCodeGrant Scenarios.OidcRun.sdk |}.

End OidcMoreRun.

End MoreScenarios.

(** * Facts about [src/utils/oidc/authorize.ts] *)
Module OidcFacts.
Import Oidc OidcSpec.

Section Facts.
Context {Metadata : Type}.
Variable sdk : Env Metadata.

Lemma usable_or_not (v : option QueryValue) :
  unusable v \/ exists s, v = Some (QString s) /\ s <> "".
Proof.
  destruct v as [[| | | |s|]|]; try (left; right; right; congruence).
  destruct (decide (s = "")) as [->|Hs].
  - left. right. left. reflexivity.
  - right. exists s. split; [reflexivity | exact Hs].
Qed.

Lemma usable_not_unusable (v : option QueryValue) (s : string) :
  v = Some (QString s) -> s <> "" -> ~ unusable v.
Proof.
  intros -> Hs [H|[H|H]]; [discriminate | congruence | exact (H s eq_refl)].
Qed.

Lemma eqb_empty_false (s : string) : s <> "" -> String.eqb s "" = false.
Proof. intros Hs. apply String.eqb_neq. exact Hs. Qed.

(** One half of the check in [getCodeAndStateFromQueryParams]. *)
Lemma param_check_unusable (v : option QueryValue) :
  unusable v ->
  negb (truthy (default QUndefined v))
  || negb (String.eqb (typeof (default QUndefined v)) "string") = true.
Proof.
  intros H. destruct v as [[| |b|n|s|l]|]; simpl; rewrite ?orb_true_r; try reflexivity.
  destruct H as [H|[H|H]]; [discriminate | | exfalso; exact (H s eq_refl)].
  injection H as ->. reflexivity.
Qed.

Lemma param_check_usable (v : option QueryValue) (s : string) :
  v = Some (QString s) -> s <> "" ->
  negb (truthy (default QUndefined v))
  || negb (String.eqb (typeof (default QUndefined v)) "string") = false.
Proof.
  intros -> Hs. simpl. rewrite (eqb_empty_false _ Hs). reflexivity.
Qed.

Lemma getCodeAndState_usable (q : QueryDict) (c s : string) :
  nonempty_string_at q "code" c -> nonempty_string_at q "state" s ->
  getCodeAndStateFromQueryParams q = Fulfilled (c, s).
Proof.
  intros [Hc Hc'] [Hs Hs']. unfold getCodeAndStateFromQueryParams, prop.
  rewrite <- orb_assoc.
  rewrite (param_check_usable _ _ Hc Hc'), (param_check_usable _ _ Hs Hs').
  rewrite Hc, Hs. reflexivity.
Qed.

Lemma getCodeAndState_unusable (q : QueryDict) :
  unusable (q !! "code") \/ unusable (q !! "state") ->
  getCodeAndStateFromQueryParams q = Rejected invalid_query_error.
Proof.
  unfold getCodeAndStateFromQueryParams, prop. rewrite <- orb_assoc.
  intros [H|H]; rewrite (param_check_unusable _ H), ?orb_true_r; reflexivity.
Qed.

Lemma completeOidcLogin_usable (q : QueryDict) (w : Location) (code state : string) :
  nonempty_string_at q "code" code -> nonempty_string_at q "state" state ->
  completeOidcLogin sdk q w =
    (match completeAuthorizationCodeGrant sdk code state with
     | Fulfilled g =>
         Fulfilled {| r_homeserverUrl := homeserverUrl g;
                      r_identityServerUrl := identityServerUrl g;
                      r_accessToken := access_token (tokenResponse g);
                      r_clientId := clientId (oidcClientSettings g);
                      r_issuer := issuer (oidcClientSettings g) |}
     | Rejected e => Rejected e
     end, w, [CompleteAuthorizationCodeGrant code state]).
Proof.
  intros Hc Hs. unfold completeOidcLogin, mbind, task_bind, bind, settle.
  rewrite (getCodeAndState_usable q code state Hc Hs). unfold call.
  destruct (completeAuthorizationCodeGrant sdk code state); reflexivity.
Qed.

Lemma completeOidcLogin_unusable (q : QueryDict) (w : Location) :
  unusable (q !! "code") \/ unusable (q !! "state") ->
  completeOidcLogin sdk q w = (Rejected invalid_query_error, w, []).
Proof.
  intros H. unfold completeOidcLogin, mbind, task_bind, bind, settle.
  rewrite (getCodeAndState_unusable q H). reflexivity.
Qed.

(** C2: when the "code" and "state" query parameters are non-empty strings
    and the SDK's [completeAuthorizationCodeGrant(code, state)] resolves,
    [completeOidcLogin] resolves with the SDK's fields and nothing else:
    [homeserverUrl] and [identityServerUrl] as they are, [accessToken] from
    [tokenResponse.access_token], [clientId] and [issuer] from
    [oidcClientSettings].  The one call to the SDK is all the helper does. *)
Theorem completeOidcLogin_returns_grant_fields
    (q : QueryDict) (w : Location) (code state : string) (g : GrantResult) :
  nonempty_string_at q "code" code ->
  nonempty_string_at q "state" state ->
  completeAuthorizationCodeGrant sdk code state = Fulfilled g ->
  completeOidcLogin sdk q w =
    (Fulfilled {| r_homeserverUrl := homeserverUrl g;
                  r_identityServerUrl := identityServerUrl g;
                  r_accessToken := access_token (tokenResponse g);
                  r_clientId := clientId (oidcClientSettings g);
                  r_issuer := issuer (oidcClientSettings g) |},
     w, [CompleteAuthorizationCodeGrant code state]).
Proof.
  intros Hc Hs Hg. rewrite (completeOidcLogin_usable q w code state Hc Hs), Hg.
  reflexivity.
Qed.

(** C3, amended: [completeOidcLogin] throws without having called the SDK
    exactly when the "code" or "state" query parameter is absent, empty or
    not a single string, and the error is then its own "Invalid query
    parameters" error.  For every other input the extracted code and state
    are passed to [completeAuthorizationCodeGrant] unchanged, and the helper
    throws exactly when, and what, that call rejects. *)
Theorem completeOidcLogin_throws_before_sdk_iff (q : QueryDict) (w : Location) :
  let r := completeOidcLogin sdk q w in
  (unusable (q !! "code") \/ unusable (q !! "state")
   <-> r = (Rejected invalid_query_error, w, []))
  /\ (forall code state,
        nonempty_string_at q "code" code ->
        nonempty_string_at q "state" state ->
        effects r = [CompleteAuthorizationCodeGrant code state]
        /\ forall e, outcome r = Rejected e
                     <-> completeAuthorizationCodeGrant sdk code state = Rejected e).
Proof.
  intros r. subst r. split.
  - split; [apply completeOidcLogin_unusable |].
    intros Hr.
    destruct (usable_or_not (q !! "code")) as [Hc|[c Hc]]; [left; exact Hc |].
    destruct (usable_or_not (q !! "state")) as [Hs|[s Hs]]; [right; exact Hs |].
    rewrite (completeOidcLogin_usable q w c s Hc Hs) in Hr. discriminate Hr.
  - intros code state Hc Hs.
    rewrite (completeOidcLogin_usable q w code state Hc Hs).
    split; [reflexivity |]. intros e. unfold outcome. simpl.
    destruct (completeAuthorizationCodeGrant sdk code state); split; congruence.
Qed.

(** C6: [startOidcLogin] takes [window.location.origin] as redirect URI,
    asks the SDK for a random string of length 10 as nonce, and hands both,
    with the metadata of the given config, the client id, the homeserver URL
    and the optional identity server URL, to the SDK's
    [generateOidcAuthorizationUrl]; the URL the SDK resolves with is assigned
    to [window.location.href], and that is all the function does. *)
Theorem startOidcLogin_navigates_to_sdk_url
    (delegatedAuthConfig : OidcClientConfig Metadata)
    (clientId_ homeserverUrl_ : string) (identityServerUrl_ : option string)
    (w : Location) :
  let r := startOidcLogin sdk delegatedAuthConfig clientId_ homeserverUrl_ identityServerUrl_ w in
  let params := {| a_metadata := metadata delegatedAuthConfig;
                   a_redirectUri := origin w;
                   a_clientId := clientId_;
                   a_homeserverUrl := homeserverUrl_;
                   a_identityServerUrl := identityServerUrl_;
                   a_nonce := randomString sdk 10 |} in
  (exists rest, effects r = RandomString 10 :: GenerateOidcAuthorizationUrl params :: rest)
  /\ (forall url, generateOidcAuthorizationUrl sdk params = Fulfilled url ->
        r = (Fulfilled tt, {| origin := origin w; href := url |},
             [RandomString 10; GenerateOidcAuthorizationUrl params; AssignLocationHref url])).
Proof.
  intros r params. subst r.
  unfold startOidcLogin, mbind, task_bind, bind, call, read, emit, modify. simpl.
  fold params. split.
  - destruct (generateOidcAuthorizationUrl sdk params); eexists; reflexivity.
  - intros url ->. reflexivity.
Qed.

End Facts.

Import Scenarios.OidcRun.

Lemma completeOidcLogin_returns_grant_fields_witness :
  nonempty_string_at good_query "code" "abc"
  /\ nonempty_string_at good_query "state" "xyz"
  /\ completeOidcLogin sdk good_query window =
       (Fulfilled {| r_homeserverUrl := "https://matrix.example.org";
                     r_identityServerUrl := Some "https://vector.im";
                     r_accessToken := "syt_token";
                     r_clientId := "element-web";
                     r_issuer := "https://auth.example.org/" |},
        window, [CompleteAuthorizationCodeGrant "abc" "xyz"]).
Proof.
  assert (Hc : nonempty_string_at good_query "code" "abc")
    by (split; [reflexivity | discriminate]).
  assert (Hs : nonempty_string_at good_query "state" "xyz")
    by (split; [reflexivity | discriminate]).
  split; [exact Hc | split; [exact Hs |]].
  apply (completeOidcLogin_returns_grant_fields sdk good_query window "abc" "xyz" grant Hc Hs).
  reflexivity.
Defined.

(** With a well-formed but stale code the SDK rejects, and so does
    [completeOidcLogin], although neither parameter is absent, empty or
    anything but a single string. *)
Lemma completeOidcLogin_throws_on_usable_query :
  ~ (is_fulfilled (outcome (completeOidcLogin sdk stale_query window)) = false
     <-> unusable (stale_query !! "code") \/ unusable (stale_query !! "state")).
Proof.
  intros [Himp _].
  destruct (Himp eq_refl) as [H|H]; revert H.
  - apply (usable_not_unusable _ "old"); [reflexivity | discriminate].
  - apply (usable_not_unusable _ "xyz"); [reflexivity | discriminate].
Qed.

Lemma completeOidcLogin_throws_before_sdk_iff_witness :
  nonempty_string_at stale_query "code" "old"
  /\ nonempty_string_at stale_query "state" "xyz"
  /\ effects (completeOidcLogin sdk stale_query window)
       = [CompleteAuthorizationCodeGrant "old" "xyz"]
  /\ outcome (completeOidcLogin sdk stale_query window) = Rejected exchange_failed
  /\ completeOidcLogin sdk repeated_code_query window
       = (Rejected invalid_query_error, window, []).
Proof.
  assert (Hc : nonempty_string_at stale_query "code" "old")
    by (split; [reflexivity | discriminate]).
  assert (Hs : nonempty_string_at stale_query "state" "xyz")
    by (split; [reflexivity | discriminate]).
  split; [exact Hc | split; [exact Hs |]].
  destruct (completeOidcLogin_throws_before_sdk_iff sdk stale_query window)
    as [_ Hcall].
  destruct (Hcall "old" "xyz" Hc Hs) as [Heff Hrej].
  split; [exact Heff |]. split; [apply Hrej; reflexivity |].
  destruct (completeOidcLogin_throws_before_sdk_iff sdk repeated_code_query window)
    as [Hthrow _].
  apply Hthrow. left. right. right. intros s. discriminate.
Defined.

Lemma startOidcLogin_navigates_to_sdk_url_witness :
  startOidcLogin sdk config "element-web" "https://matrix.example.org" None window
  = (Fulfilled tt,
     {| origin := "https://app.example.org";
        href := "https://auth.example.org/authorize?nonce=q7Wm2ZpLx0" |},
     [RandomString 10;
      GenerateOidcAuthorizationUrl
        {| a_metadata := "issuer-metadata";
           a_redirectUri := "https://app.example.org";
           a_clientId := "element-web";
           a_homeserverUrl := "https://matrix.example.org";
           a_identityServerUrl := None;
           a_nonce := "q7Wm2ZpLx0" |};
      AssignLocationHref "https://auth.example.org/authorize?nonce=q7Wm2ZpLx0"]).
Proof.
  destruct (startOidcLogin_navigates_to_sdk_url sdk config "element-web"
              "https://matrix.example.org" None window) as [_ Hnav].
  apply (Hnav "https://auth.example.org/authorize?nonce=q7Wm2ZpLx0").
  reflexivity.
Defined.

End OidcFacts.


(** * Facts about [ExportE2eKeysDialog.tsx] *)
Module ExportFacts.
Import ExportE2eKeysDialog DialogSpec.

Section Facts.
Context {RoomKeys : Type}.
Variable env : Env RoomKeys.

Lemma error_text_cases (e : JsError) :
  (exists s, friendlyText e = Some s /\ s <> "" /\ error_text env e = s)
  \/ ((friendlyText e = None \/ friendlyText e = Some "")
      /\ error_text env e = _t env "Unknown error").
Proof.
  unfold error_text. destruct (friendlyText e) as [s|].
  - destruct (String.eqb_spec s "") as [->|Hs].
    + right. split; [right|]; reflexivity.
    + left. exists s. repeat split. exact Hs.
  - right. split; [left|]; reflexivity.
Qed.

(** C1: when the SDK hands out the room keys [k], the Megolm module
    encrypts [JSON.stringify(k)] under the passphrase to the bytes [f] and
    FileSaver saves, [startExport] does exactly this: it sets the phase,
    asks the SDK for the keys, passes [JSON.stringify(k)] and the passphrase
    to [encryptMegolmKeyFile], saves a blob whose only part is [f] under the
    name "element-keys.txt", and reports [onFinished(true)].  The bytes in
    the file are the ones the Megolm module returned. *)
Theorem startExport_saves_sdk_ciphertext
    (passphrase : string) (d : Dialog) (k : RoomKeys) (f : list byte) :
  exportRoomKeys env = Fulfilled k ->
  encryptMegolmKeyFile env (JSON_stringify env k) passphrase = Fulfilled f ->
  saveAs env {| parts := [f]; type := "text/plain;charset=us-ascii" |} "element-keys.txt"
    = Fulfilled tt ->
  outcome (startExport env passphrase d) = Fulfilled tt
  /\ effects (startExport env passphrase d) =
      [SetState now_exporting;
       ExportRoomKeys;
       EncryptMegolmKeyFile (JSON_stringify env k) passphrase;
       FileSaverSaveAs {| parts := [f]; type := "text/plain;charset=us-ascii" |}
                       "element-keys.txt";
       OnFinished (Some true)].
Proof.
  intros Hk Hf Hs. unfold startExport, awaiting, setState. run_task.
  rewrite Hk. simpl. rewrite Hf. simpl. rewrite Hs. simpl. split; reflexivity.
Qed.

(** The failure handler, run on its own. *)
Lemma startExport_failed_run (e : JsError) (d : Dialog) :
  startExport_failed env e d =
    if unmounted d
    then (Fulfilled tt, d, [LoggerError "Error exporting e2e keys:" e])
    else (Fulfilled tt, final (setState (back_to_edit env e) d),
          [LoggerError "Error exporting e2e keys:" e; SetState (back_to_edit env e)]).
Proof.
  unfold startExport_failed, setState. run_task.
  destruct (unmounted d) eqn:Hd; rewrite ?Hd; reflexivity.
Qed.

(** [startExport], run as a whole: what it does in each of the ways the
    pipeline can go. *)
Lemma startExport_run (passphrase : string) (d : Dialog) :
  startExport env passphrase d =
    let d2 := pending env ExportRoomKeys (final (setState now_exporting d)) in
    match exportRoomKeys env with
    | Rejected e =>
        after [SetState now_exporting; ExportRoomKeys] (startExport_failed env e d2)
    | Fulfilled k =>
        let data := JSON_stringify env k in
        let d3 := pending env (EncryptMegolmKeyFile data passphrase) d2 in
        match encryptMegolmKeyFile env data passphrase with
        | Rejected e =>
            after [SetState now_exporting; ExportRoomKeys;
                   EncryptMegolmKeyFile data passphrase]
                  (startExport_failed env e d3)
        | Fulfilled f =>
            match saveAs env (key_file f) "element-keys.txt" with
            | Rejected e =>
                after [SetState now_exporting; ExportRoomKeys;
                       EncryptMegolmKeyFile data passphrase;
                       FileSaverSaveAs (key_file f) "element-keys.txt"]
                      (startExport_failed env e d3)
            | Fulfilled _ =>
                (Fulfilled tt, d3,
                 [SetState now_exporting; ExportRoomKeys;
                  EncryptMegolmKeyFile data passphrase;
                  FileSaverSaveAs (key_file f) "element-keys.txt";
                  OnFinished (Some true)])
            end
        end
    end.
Proof.
  unfold startExport, awaiting, setState, key_file, after. run_task.
  destruct (exportRoomKeys env) as [k|e]; simpl.
  - destruct (encryptMegolmKeyFile env _ passphrase) as [f|e]; simpl.
    + destruct (saveAs env _ _) as [[]|e]; simpl; [reflexivity |].
      destruct (startExport_failed env e _) as [[o d'] l]. reflexivity.
    + destruct (startExport_failed env e _) as [[o d'] l]. reflexivity.
  - destruct (startExport_failed env e _) as [[o d'] l]. reflexivity.
Qed.

(** What a failed export looks like, whatever step failed: the calls made
    so far, then the failure handler. *)
Lemma failed_export_outcome (calls : list Effect) (e : JsError) (d : Dialog) :
  OnFinished (Some true) ∉ calls ->
  state_updates calls = [SetState now_exporting] ->
  let r := after calls (startExport_failed env e d) in
  (OnFinished (Some true) ∉ effects r)
  /\ (unmounted (final r) = false ->
      phase (state (final r)) = Edit
      /\ errStr (state (final r)) = Some (error_text env e))
  /\ (unmounted (final r) = true -> state_updates (effects r) = [SetState now_exporting]).
Proof.
  intros Hcalls Hupdates r. subst r. rewrite startExport_failed_run.
  unfold after, state_updates in *.
  destruct (unmounted d) eqn:Hd; run_task; rewrite Hd, List.filter_app, Hupdates.
  - split; [| split; [discriminate | reflexivity]].
    intros [Hin|Hin]%elem_of_app; [exact (Hcalls Hin) | revert Hin; absent].
  - split; [| split; [intros _; split; reflexivity | discriminate]].
    intros [Hin|Hin]%elem_of_app; [exact (Hcalls Hin) | revert Hin; absent].
Qed.

(** The words of the specification, read off the three answers. *)
Lemma export_fails_inv (passphrase : string) (e : JsError) :
  export_fails env passphrase e ->
  match exportRoomKeys env with
  | Rejected e' => e' = e
  | Fulfilled k =>
      match encryptMegolmKeyFile env (JSON_stringify env k) passphrase with
      | Rejected e' => e' = e
      | Fulfilled f => saveAs env (key_file f) "element-keys.txt" = Rejected e
      end
  end.
Proof.
  intros [He|[(k & Hk & He)|(k & f & Hk & Hf & He)]].
  - rewrite He. reflexivity.
  - rewrite Hk, He. reflexivity.
  - rewrite Hk, Hf. exact He.
Qed.

Lemma export_saved_iff (passphrase : string) :
  export_saved env passphrase <->
  match exportRoomKeys env with
  | Rejected _ => False
  | Fulfilled k =>
      match encryptMegolmKeyFile env (JSON_stringify env k) passphrase with
      | Rejected _ => False
      | Fulfilled f => saveAs env (key_file f) "element-keys.txt" = Fulfilled tt
      end
  end.
Proof.
  split.
  - intros (k & f & Hk & Hf & Hs). rewrite Hk, Hf. exact Hs.
  - destruct (exportRoomKeys env) as [k|] eqn:Hk; [| contradiction].
    destruct (encryptMegolmKeyFile env _ passphrase) as [f|] eqn:Hf; [| contradiction].
    intros Hs. exists k, f. repeat split; assumption.
Qed.

(** C8: if [exportRoomKeys], [encryptMegolmKeyFile] or the saving rejects
    with [e], then [onFinished(true)] is not called and, if the dialog is
    still mounted, its state goes back to phase [Edit] with [errStr] the
    error's [friendlyText], or the translated "Unknown error" when it has
    none; [onFinished(true)] is called exactly when the file was saved; and
    cancelling calls [onFinished(false)] and starts nothing. *)
Theorem startExport_reports_failure_and_success (passphrase : string) (d : Dialog) :
  let r := startExport env passphrase d in
  (forall e, export_fails env passphrase e ->
     (OnFinished (Some true) ∉ effects r)
     /\ (unmounted (final r) = false ->
         phase (state (final r)) = Edit
         /\ errStr (state (final r)) = Some (error_text env e)))
  /\ (forall e,
        (exists s, friendlyText e = Some s /\ s <> "" /\ error_text env e = s)
        \/ ((friendlyText e = None \/ friendlyText e = Some "")
            /\ error_text env e = _t env "Unknown error"))
  /\ (OnFinished (Some true) ∈ effects r <-> export_saved env passphrase)
  /\ @onCancelClick d = (Fulfilled false, d, [PreventDefault; OnFinished (Some false)]).
Proof.
  intros r. subst r.
  pose proof (fun d' e => failed_export_outcome
                [SetState now_exporting; ExportRoomKeys] e d'
                ltac:(absent) eq_refl) as Hkeys.
  pose proof (fun k d' e => failed_export_outcome
                [SetState now_exporting; ExportRoomKeys;
                 EncryptMegolmKeyFile (JSON_stringify env k) passphrase] e d'
                ltac:(absent) eq_refl) as Hencrypt.
  pose proof (fun k f d' e => failed_export_outcome
                [SetState now_exporting; ExportRoomKeys;
                 EncryptMegolmKeyFile (JSON_stringify env k) passphrase;
                 FileSaverSaveAs (key_file f) "element-keys.txt"] e d'
                ltac:(absent) eq_refl) as Hsave.
  cbv zeta in Hkeys, Hencrypt, Hsave.
  split; [| split; [exact error_text_cases | split; [| reflexivity]]].
  - intros e Hfail. apply export_fails_inv in Hfail. revert Hfail.
    rewrite startExport_run. cbv zeta.
    destruct (exportRoomKeys env) as [k|e1]; [| intros <-; split; apply Hkeys].
    destruct (encryptMegolmKeyFile env _ passphrase) as [f|e2];
      [| intros <-; split; apply Hencrypt].
    intros ->. split; apply Hsave.
  - rewrite export_saved_iff, startExport_run. cbv zeta.
    destruct (exportRoomKeys env) as [k|e1];
      [| split; [intros Hin; exfalso; revert Hin; apply Hkeys | contradiction]].
    destruct (encryptMegolmKeyFile env _ passphrase) as [f|e2];
      [| split; [intros Hin; exfalso; revert Hin; apply Hencrypt | contradiction]].
    destruct (saveAs env (key_file f) "element-keys.txt") as [[]|e3].
    + split; [reflexivity | intros _; unfold effects; simpl; present].
    + split; [intros Hin; exfalso; revert Hin; apply Hsave | discriminate].
Qed.

(** Every control of the form is disabled exactly while the dialog exports. *)
Lemma render_disabled (d : Dialog) :
  submit_disabled (render d) = Phase_eqb (phase (state d)) Exporting
  /\ cancel_disabled (render d) = Phase_eqb (phase (state d)) Exporting
  /\ passphrase_disabled (render d) = Phase_eqb (phase (state d)) Exporting
  /\ confirm_disabled (render d) = Phase_eqb (phase (state d)) Exporting.
Proof. repeat split. Qed.

(** C9: in a render with phase [Exporting] the submit input, the cancel
    button and both passphrase fields are disabled; as the browser delivers
    no event of a disabled control, no action of the user on the form runs a
    handler of the dialog: no export starts and the state stays as it is. *)
Theorem exporting_disables_form (d : Dialog) :
  phase (state d) = Exporting ->
  (submit_disabled (render d) = true
   /\ cancel_disabled (render d) = true
   /\ passphrase_disabled (render d) = true
   /\ confirm_disabled (render d) = true)
  /\ forall a : UserAction, user env a d = (Fulfilled tt, d, []).
Proof.
  intros Hphase. split.
  - destruct (render_disabled d) as (-> & -> & -> & ->). rewrite Hphase.
    repeat split.
  - intros a. unfold user, render. run_task. rewrite Hphase.
    destruct a; reflexivity.
Qed.

(** The loop of [verifyFieldsBeforeSubmit]: it validates the present fields
    in order and collects, behind those it was given, the ones that do not
    validate. *)
Lemma validate_fields_run (fields : list (option Field)) (invalidFields : list Field)
    (d : Dialog) :
  validate_fields env fields invalidFields d =
    (Fulfilled (invalidFields
                ++ List.filter (fun f => negb (validates env f)) (omap id fields)),
     foldl (fun d' f => pending env (FieldValidate f first_pass) d') d (omap id fields),
     map (fun f => FieldValidate f first_pass) (omap id fields)).
Proof.
  revert invalidFields d.
  induction fields as [|[field|] fields IH]; intros invalidFields d; simpl.
  - rewrite app_nil_r. reflexivity.
  - unfold mbind, task_bind, bind, awaiting, await, not_valid.
    fold first_pass. unfold validates.
    destruct (default false (validate env field first_pass)); simpl; rewrite IH.
    + reflexivity.
    + rewrite <- app_assoc. reflexivity.
  - apply IH.
Qed.

Lemma filter_head_find {A : Type} (p : A -> bool) (l : list A) :
  List.find p l = head (List.filter p l).
Proof.
  induction l as [|x l IH]; simpl; [reflexivity |].
  destruct (p x); [reflexivity | exact IH].
Qed.

(** The validation pass, run on its own. *)
Lemma verifyFieldsBeforeSubmit_run (d : Dialog) :
  verifyFieldsBeforeSubmit env d =
    match List.find (fun f => negb (validates env f)) (present_fields d) with
    | None =>
        (Fulfilled true, after_validation env d,
         map (fun f => FieldValidate f first_pass) (present_fields d))
    | Some first =>
        (Fulfilled false, after_validation env d,
         map (fun f => FieldValidate f first_pass) (present_fields d)
         ++ [FieldFocus first; FieldValidate first second_pass])
    end.
Proof.
  unfold verifyFieldsBeforeSubmit, after_validation, present_fields.
  unfold mbind at 1 2 3, task_bind at 1 2 3, bind at 1 2 3, read.
  rewrite validate_fields_run, filter_head_find. simpl app at 1.
  destruct (List.filter _ _) as [|first rest]; run_task; rewrite ?app_nil_r; reflexivity.
Qed.

Lemma find_none_forallb (l : list Field) :
  forallb (validates env) l = true ->
  List.find (fun f => negb (validates env f)) l = None.
Proof.
  induction l as [|f l IH]; simpl; [reflexivity |].
  destruct (validates env f); simpl; [exact IH | discriminate].
Qed.

(** A submission, run as a whole. *)
Lemma onPassphraseFormSubmit_run (d : Dialog) :
  onPassphraseFormSubmit env d =
    let d' := after_validation env d in
    match List.find (fun f => negb (validates env f)) (present_fields d) with
    | Some first =>
        (Fulfilled tt, d',
         validation_pass d ++ [FieldFocus first; FieldValidate first second_pass])
    | None =>
        if unmounted d' then (Fulfilled tt, d', validation_pass d)
        else after (validation_pass d) (startExport env (passphrase1 (state d')) d')
    end.
Proof.
  unfold onPassphraseFormSubmit, validation_pass.
  unfold mbind at 1, task_bind at 1, bind at 1, emit at 1.
  unfold mbind at 1, task_bind at 1, bind at 1.
  rewrite verifyFieldsBeforeSubmit_run.
  destruct (List.find _ _) as [first|]; run_task.
  - rewrite app_nil_r. reflexivity.
  - destruct (unmounted (after_validation env d)).
    + rewrite !app_nil_r. reflexivity.
    + destruct (startExport env _ _) as [[o d''] l]. reflexivity.
Qed.

(** [startExport] always begins by setting the phase and asking for the keys. *)
Lemma startExport_begins (passphrase : string) (d : Dialog) :
  exists rest,
    effects (startExport env passphrase d)
    = SetState now_exporting :: ExportRoomKeys :: rest.
Proof.
  unfold startExport, startExport_failed, awaiting, setState. run_task.
  destruct (exportRoomKeys env) as [k|e]; simpl.
  - destruct (encryptMegolmKeyFile env _ passphrase) as [f|e]; simpl.
    + destruct (saveAs env _ _) as [[]|e]; simpl.
      * eexists. reflexivity.
      * destruct (unmounted _); eexists; reflexivity.
    + destruct (unmounted _); eexists; reflexivity.
  - destruct (unmounted _); eexists; reflexivity.
Qed.

Lemma validation_pass_starts_nothing (d : Dialog) :
  export_started (validation_pass d) = false.
Proof.
  unfold export_started, validation_pass. simpl.
  induction (present_fields d) as [|f l IH]; simpl; [reflexivity | exact IH].
Qed.

(** C4, amended: a submission validates every present field with
    [allowEmpty: false], the passphrase first and the confirmation second.
    If all of them validate and the dialog has not been unmounted by then,
    the export starts with the value [passphrase1] has at that moment; if
    all validate but the dialog has been unmounted, nothing more happens;
    and if one does not validate, no export starts and the first invalid
    field in display order is focused and validated again, with
    [focused: true]. *)
Theorem onPassphraseFormSubmit_validates_then_exports (d : Dialog) :
  let d' := after_validation env d in
  let r := onPassphraseFormSubmit env d in
  (forallb (validates env) (present_fields d) = true ->
   unmounted d' = false ->
   outcome r = outcome (startExport env (passphrase1 (state d')) d')
   /\ final r = final (startExport env (passphrase1 (state d')) d')
   /\ effects r = validation_pass d ++ effects (startExport env (passphrase1 (state d')) d')
   /\ export_started (effects r) = true)
  /\ (forallb (validates env) (present_fields d) = true ->
      unmounted d' = true ->
      r = (Fulfilled tt, d', validation_pass d)
      /\ export_started (effects r) = false)
  /\ (forall first,
        List.find (fun f => negb (validates env f)) (present_fields d) = Some first ->
        r = (Fulfilled tt, d',
             validation_pass d ++ [FieldFocus first; FieldValidate first second_pass])
        /\ export_started (effects r) = false).
Proof.
  intros d' r. subst d' r. rewrite onPassphraseFormSubmit_run. simpl.
  split; [| split].
  - intros Hall Hmounted. rewrite (find_none_forallb _ Hall), Hmounted.
    destruct (startExport_begins (passphrase1 (state (after_validation env d)))
                (after_validation env d)) as [rest Hrest].
    destruct (startExport env _ _) as [[o d''] l]. unfold effects in *. simpl in *.
    repeat split. subst l.
    unfold export_started. rewrite existsb_app. simpl. apply orb_true_r.
  - intros Hall Hunmounted. rewrite (find_none_forallb _ Hall), Hunmounted.
    split; [reflexivity | apply validation_pass_starts_nothing].
  - intros first Hfirst. rewrite Hfirst. split; [reflexivity |].
    unfold export_started, effects. simpl. rewrite existsb_app. simpl.
    rewrite orb_false_r. apply validation_pass_starts_nothing.
Qed.

(** A failed export of a dialog that is unmounted by the time the failure
    arrives: the only [setState] is the one [startExport] did at the start. *)
Lemma startExport_failed_unmounted (passphrase : string) (d : Dialog) (e : JsError) :
  export_fails env passphrase e ->
  unmounted (final (startExport env passphrase d)) = true ->
  state_updates (effects (startExport env passphrase d)) = [SetState now_exporting].
Proof.
  intros Hfail. apply export_fails_inv in Hfail. revert Hfail.
  rewrite startExport_run. cbv zeta.
  destruct (exportRoomKeys env) as [k|e1];
    [| intros <-; apply failed_export_outcome; [absent | reflexivity]].
  destruct (encryptMegolmKeyFile env _ passphrase) as [f|e2];
    [| intros <-; apply failed_export_outcome; [absent | reflexivity]].
  intros ->. apply failed_export_outcome; [absent | reflexivity].
Qed.

End Facts.

Import Scenarios.DialogRun.

Lemma startExport_saves_sdk_ciphertext_witness :
  outcome (startExport env "correct horse" filled) = Fulfilled tt
  /\ effects (startExport env "correct horse" filled) =
      [SetState now_exporting;
       ExportRoomKeys;
       EncryptMegolmKeyFile "[s1,s2]" "correct horse";
       FileSaverSaveAs
         {| parts := [bytes_of "MEGOLM(correct horse)[s1,s2]"];
            type := "text/plain;charset=us-ascii" |}
         "element-keys.txt";
       OnFinished (Some true)].
Proof.
  apply (startExport_saves_sdk_ciphertext env "correct horse" filled ["s1"; "s2"]
           (bytes_of "MEGOLM(correct horse)[s1,s2]")); reflexivity.
Defined.

Lemma startExport_reports_failure_and_success_witness :
  export_fails env_encrypt_fails "correct horse" crypto_failed
  /\ (OnFinished (Some true) ∉ effects (startExport env_encrypt_fails "correct horse" filled))
  /\ phase (state (final (startExport env_encrypt_fails "correct horse" filled))) = Edit
  /\ errStr (state (final (startExport env_encrypt_fails "correct horse" filled)))
     = Some "Your browser does not support the required cryptography extensions".
Proof.
  assert (Hfail : export_fails env_encrypt_fails "correct horse" crypto_failed).
  { right. left. exists ["s1"; "s2"]. split; reflexivity. }
  split; [exact Hfail |].
  destruct (startExport_reports_failure_and_success env_encrypt_fails "correct horse" filled)
    as (Hrej & _).
  destruct (Hrej crypto_failed Hfail) as [Hnot Hstate].
  split; [exact Hnot |]. exact (Hstate eq_refl).
Defined.

Lemma exporting_disables_form_witness :
  phase (state exporting) = Exporting
  /\ submit_disabled (render exporting) = true
  /\ user env Submit exporting = (Fulfilled tt, exporting, []).
Proof.
  split; [reflexivity |].
  destruct (exporting_disables_form env exporting eq_refl) as [(Hsubmit & _) Huser].
  split; [exact Hsubmit | exact (Huser Submit)].
Defined.

(** Both fields validate, but the dialog is closed while the second one is
    still validating: the submission ends after the validation pass and no
    export is started. *)
Lemma onPassphraseFormSubmit_unmounted_no_export :
  ~ (forallb (validates env_closed_early) (present_fields filled) = true ->
     export_started (effects (onPassphraseFormSubmit env_closed_early filled)) = true).
Proof.
  intros H. specialize (H eq_refl). vm_compute in H. discriminate H.
Qed.

Lemma onPassphraseFormSubmit_validates_then_exports_witness :
  effects (onPassphraseFormSubmit env filled)
  = [PreventDefault;
     FieldValidate PassphraseField first_pass;
     FieldValidate PassphraseConfirmField first_pass]
    ++ effects (startExport env "correct horse" filled)
  /\ onPassphraseFormSubmit env_closed_early filled
     = (Fulfilled tt, closed_while_editing, validation_pass filled)
  /\ onPassphraseFormSubmit env_mismatch filled
     = (Fulfilled tt, filled,
        validation_pass filled
        ++ [FieldFocus PassphraseConfirmField;
            FieldValidate PassphraseConfirmField second_pass]).
Proof.
  destruct (onPassphraseFormSubmit_validates_then_exports env filled)
    as (Hstart & _ & _).
  destruct (onPassphraseFormSubmit_validates_then_exports env_closed_early filled)
    as (_ & Hclosed & _).
  destruct (onPassphraseFormSubmit_validates_then_exports env_mismatch filled)
    as (_ & _ & Hinvalid).
  split; [| split].
  - exact (proj1 (proj2 (proj2 (Hstart eq_refl eq_refl)))).
  - exact (proj1 (Hclosed eq_refl eq_refl)).
  - exact (proj1 (Hinvalid PassphraseConfirmField eq_refl)).
Defined.

End ExportFacts.

(** * Facts about [SecureBackupPanel.tsx] *)
Module PanelFacts.
Import SecureBackupPanel.

Section Facts.
Context {IKeyBackupInfo TrustInfo : Type}.
Variable env : Env IKeyBackupInfo TrustInfo.

Abbreviation Panel := (SecureBackupPanel.Panel IKeyBackupInfo TrustInfo).

(** [loadBackupStatus], run as a whole: what it does in each of the ways
    the SDK can answer. *)
Lemma loadBackupStatus_run (c : Panel) :
  loadBackupStatus env c =
    let c2 := pending env GetKeyBackupVersion (final (setState (patch_loading true) c)) in
    let started := [SetState (patch_loading true); Start GetUpdatedDiagnostics;
                    GetKeyBackupVersion] in
    match getKeyBackupVersion env with
    | Rejected e => after started (loadBackupStatus_failed e c2)
    | Fulfilled None => after started (loadBackupStatus_resume None None c2)
    | Fulfilled (Some info) =>
        let c3 := pending env (IsKeyBackupTrusted info) c2 in
        match isKeyBackupTrusted env info with
        | Rejected e =>
            after (started ++ [IsKeyBackupTrusted info]) (loadBackupStatus_failed e c3)
        | Fulfilled t =>
            after (started ++ [IsKeyBackupTrusted info])
                  (loadBackupStatus_resume (Some info) (Some t) c3)
        end
    end.
Proof.
  unfold loadBackupStatus, loadBackupStatus_resume, loadBackupStatus_failed,
    awaiting, start, setState, after.
  run_task.
  destruct (getKeyBackupVersion env) as [[info|]|e]; simpl.
  - destruct (isKeyBackupTrusted env info) as [t|e]; simpl;
      destruct (unmounted (pending env (IsKeyBackupTrusted info) _)); reflexivity.
  - destruct (unmounted (pending env GetKeyBackupVersion _)); reflexivity.
  - destruct (unmounted (pending env GetKeyBackupVersion _)); reflexivity.
Qed.

(** C5, amended: when [loadBackupStatus] has run and the panel is still
    mounted, [backupSigStatus] is what the SDK's [isKeyBackupTrusted]
    returned for the backup that [getKeyBackupVersion] returned, and [null]
    when [getKeyBackupVersion] returned none.  The panel asks the SDK and
    stores the answer; it does nothing else. *)
Theorem loadBackupStatus_stores_sdk_verdict (c : Panel) :
  let r := loadBackupStatus env c in
  unmounted (final r) = false ->
  (forall info t,
     getKeyBackupVersion env = Fulfilled (Some info) ->
     isKeyBackupTrusted env info = Fulfilled t ->
     backupSigStatus (state (final r)) = Some t
     /\ effects r = [SetState (patch_loading true); Start GetUpdatedDiagnostics;
                     GetKeyBackupVersion; IsKeyBackupTrusted info;
                     SetState (patch_status false (Some info) (Some t))])
  /\ (getKeyBackupVersion env = Fulfilled None ->
      backupSigStatus (state (final r)) = None
      /\ effects r = [SetState (patch_loading true); Start GetUpdatedDiagnostics;
                      GetKeyBackupVersion;
                      SetState (patch_status false None None)]).
Proof.
  intros r. subst r. rewrite loadBackupStatus_run. simpl.
  intros Hmounted. split.
  - intros info t Hinfo Ht. rewrite Hinfo, Ht in *.
    unfold loadBackupStatus_resume, setState, after in *. revert Hmounted. run_task.
    destruct (unmounted (pending env (IsKeyBackupTrusted info) _)) eqn:Hu; simpl;
      [rewrite Hu; discriminate |].
    intros _. split; reflexivity.
  - intros Hnone. rewrite Hnone in *.
    unfold loadBackupStatus_resume, setState, after in *. revert Hmounted. run_task.
    destruct (unmounted (pending env GetKeyBackupVersion _)) eqn:Hu; simpl;
      [rewrite Hu; discriminate |].
    intros _. split; reflexivity.
Qed.

Lemma loadBackupStatus_never_deletes (c : Panel) (v : option string) :
  DeleteKeyBackupVersion v ∉ effects (loadBackupStatus env c).
Proof.
  rewrite loadBackupStatus_run. simpl.
  unfold loadBackupStatus_resume, loadBackupStatus_failed, setState, after. run_task.
  destruct (getKeyBackupVersion env) as [[info|]|e]; simpl.
  - destruct (isKeyBackupTrusted env info) as [t|e]; simpl;
      destruct (unmounted (pending env (IsKeyBackupTrusted info) _)); simpl; absent.
  - destruct (unmounted (pending env GetKeyBackupVersion _)); simpl; absent.
  - destruct (unmounted (pending env GetKeyBackupVersion _)); simpl; absent.
Qed.

(** [deleteBackup], run as a whole. *)
Lemma deleteBackup_run (c : Panel) :
  deleteBackup env c =
    let props := delete_dialog_props env in
    let c1 := pending env (CreateQuestionDialog props) c in
    match questionDialog env props with
    | Some (Some true) =>
        let c2 := final (setState (patch_loading true) c1) in
        match backupInfo (state c1) with
        | None =>
            (Rejected null_backup_error, c2,
             [CreateQuestionDialog props; SetState (patch_loading true)])
        | Some i =>
            let asked := [CreateQuestionDialog props; SetState (patch_loading true);
                          DeleteKeyBackupVersion (version env i)] in
            let c3 := pending env (DeleteKeyBackupVersion (version env i)) c2 in
            match deleteKeyBackupVersion env (version env i) with
            | Rejected e => (Rejected e, c3, asked)
            | Fulfilled _ => after asked (loadBackupStatus env c3)
            end
        end
    | _ => (Fulfilled tt, c1, [CreateQuestionDialog props])
    end.
Proof.
  unfold deleteBackup, deleteBackup_onFinished, awaiting, setState. run_task.
  destruct (questionDialog env (delete_dialog_props env)) as [[[|]|]|]; simpl;
    try reflexivity.
  destruct (backupInfo (state (pending env _ c))) as [i|]; simpl; [| reflexivity].
  destruct (deleteKeyBackupVersion env (version env i)) as [[]|e]; simpl; [| reflexivity].
  destruct (loadBackupStatus env _) as [[o c'] l]. reflexivity.
Qed.

(** C7: [deleteBackup] first opens the confirmation [QuestionDialog].
    [deleteKeyBackupVersion] is called only if the dialog finishes with a
    confirming answer, and then with the version of the backup in the
    panel's state; once the deletion has resolved the backup status is
    loaded again.  If the dialog finishes with anything else, or never,
    [deleteBackup] calls nothing more and sets no state. *)
Theorem deleteBackup_asks_before_deleting (c : Panel) :
  let r := deleteBackup env c in
  let props := delete_dialog_props env in
  let c1 := pending env (CreateQuestionDialog props) c in
  (exists rest, effects r = CreateQuestionDialog props :: rest)
  /\ (forall v, DeleteKeyBackupVersion v ∈ effects r ->
        questionDialog env props = Some (Some true)
        /\ exists i, backupInfo (state c1) = Some i /\ v = version env i)
  /\ (forall i,
        questionDialog env props = Some (Some true) ->
        backupInfo (state c1) = Some i ->
        deleteKeyBackupVersion env (version env i) = Fulfilled tt ->
        let c3 := pending env (DeleteKeyBackupVersion (version env i))
                    (final (setState (patch_loading true) c1)) in
        effects r = [CreateQuestionDialog props; SetState (patch_loading true);
                     DeleteKeyBackupVersion (version env i)]
                    ++ effects (loadBackupStatus env c3)
        /\ final r = final (loadBackupStatus env c3))
  /\ (questionDialog env props <> Some (Some true) ->
      r = (Fulfilled tt, c1, [CreateQuestionDialog props])).
Proof.
  intros r props c1. subst r.
  assert (Hasked : forall v i,
            DeleteKeyBackupVersion v
            ∈ ([CreateQuestionDialog props; SetState (patch_loading true);
                DeleteKeyBackupVersion (version env i)]
               : list (Effect IKeyBackupInfo TrustInfo)) ->
            v = version env i).
  { intros v i Hin.
    apply elem_of_cons in Hin as [Hin|Hin]; [discriminate Hin |].
    apply elem_of_cons in Hin as [Hin|Hin]; [discriminate Hin |].
    apply elem_of_cons in Hin as [Hin|Hin]; [congruence |].
    exfalso. exact (not_elem_of_nil _ Hin). }
  rewrite deleteBackup_run. cbv zeta. fold props. fold c1.
  destruct (questionDialog env props) as [[[|]|]|].
  2-4: (split; [eexists; reflexivity |];
        split; [intros v; unfold effects; simpl; never |];
        split; [intros i Hyes; discriminate Hyes | reflexivity]).
  destruct (backupInfo (state c1)) as [i|].
  2:{ split; [eexists; reflexivity |].
      split; [intros v; unfold effects; simpl; never |].
      split; [intros i _ Hinfo; discriminate Hinfo |].
      intros Hno. contradiction Hno. reflexivity. }
  destruct (deleteKeyBackupVersion env (version env i)) as [[]|e] eqn:Hanswer.
  2:{ split; [eexists; reflexivity |].
      split; [intros v Hin; split; [reflexivity |]; exists i; split; [reflexivity |];
              apply Hasked; exact Hin |].
      split; [intros i' _ Hinfo Hdel; injection Hinfo as <-; congruence |].
      intros Hno. contradiction Hno. reflexivity. }
  pose proof (loadBackupStatus_never_deletes
                (pending env (DeleteKeyBackupVersion (version env i))
                   (final (setState (patch_loading true) c1)))) as Hnever.
  destruct (loadBackupStatus env _) as [[o c'] l] eqn:Hload.
  split; [eexists; reflexivity |].
  split; [| split].
  - intros v Hin. split; [reflexivity |]. exists i. split; [reflexivity |].
    apply Hasked. unfold effects in Hin. simpl in Hin.
    change (DeleteKeyBackupVersion v
            ∈ [CreateQuestionDialog props; SetState (patch_loading true);
               DeleteKeyBackupVersion (version env i)] ++ l) in Hin.
    apply elem_of_app in Hin as [Hin|Hin]; [exact Hin |].
    exfalso. exact (Hnever v Hin).
  - intros i' _ Hinfo _. injection Hinfo as <-. cbv zeta. rewrite Hload.
    split; reflexivity.
  - intros Hno. contradiction Hno. reflexivity.
Qed.

(** A panel that is unmounted by the time its continuation runs: the only
    [setState] of [loadBackupStatus] is the one before its first [await]. *)
Lemma loadBackupStatus_unmounted (c : Panel) :
  unmounted (final (loadBackupStatus env c)) = true ->
  PanelSpec.state_updates (effects (loadBackupStatus env c))
  = [SetState (patch_loading true)].
Proof.
  rewrite loadBackupStatus_run. simpl.
  unfold loadBackupStatus_resume, loadBackupStatus_failed, setState, after. run_task.
  destruct (getKeyBackupVersion env) as [[info|]|e]; simpl.
  - destruct (isKeyBackupTrusted env info) as [t|e]; simpl;
      destruct (unmounted (pending env (IsKeyBackupTrusted info) _)) eqn:Hu; simpl;
      first [reflexivity | rewrite Hu; discriminate].
  - destruct (unmounted (pending env GetKeyBackupVersion _)) eqn:Hu; simpl;
      first [reflexivity | rewrite Hu; discriminate].
  - destruct (unmounted (pending env GetKeyBackupVersion _)) eqn:Hu; simpl;
      first [reflexivity | rewrite Hu; discriminate].
Qed.

Lemma getUpdatedDiagnostics_unmounted (c : Panel) :
  unmounted (final (getUpdatedDiagnostics env c)) = true ->
  PanelSpec.state_updates (effects (getUpdatedDiagnostics env c)) = [].
Proof.
  unfold getUpdatedDiagnostics, getUpdatedDiagnostics_resume, awaiting, setState.
  run_task.
  destruct (hasCrypto env); simpl; [| reflexivity].
  destruct (isKeyBackupKeyStored env) as [stored|e]; simpl; [| reflexivity].
  destruct (getSessionBackupPrivateKey env) as [key|e]; simpl; [| reflexivity].
  destruct (secretStorageHasKey env) as [inAccount|e]; simpl; [| reflexivity].
  destruct (isSecretStorageReady env) as [ready|e]; simpl; [| reflexivity].
  destruct (unmounted (pending env IsSecretStorageReady _)) eqn:Hu; simpl;
    [reflexivity | rewrite Hu; discriminate].
Qed.

Lemma checkKeyBackupStatus_failed_unmounted (c : Panel) (e : JsError) :
  checkKeyBackup env = Rejected e ->
  unmounted (final (checkKeyBackupStatus env c)) = true ->
  PanelSpec.state_updates (effects (checkKeyBackupStatus env c)) = [].
Proof.
  intros He.
  unfold checkKeyBackupStatus, checkKeyBackupStatus_failed, awaiting, start, setState.
  run_task. rewrite He. simpl.
  destruct (unmounted (pending env CheckKeyBackup c)) eqn:Hu; simpl;
    [reflexivity | rewrite Hu; discriminate].
Qed.

End Facts.

Import Scenarios.PanelRun.

(** The backup is gone and the panel is closed while it asks: the state
    keeps the verdict it had, and is not [null]. *)
Lemma loadBackupStatus_unmounted_keeps_old_verdict :
  ~ (getKeyBackupVersion env_gone_closed = Fulfilled None ->
     backupSigStatus (state (final (loadBackupStatus env_gone_closed loaded))) = None).
Proof.
  intros H. specialize (H eq_refl). vm_compute in H. discriminate H.
Qed.

Lemma loadBackupStatus_stores_sdk_verdict_witness :
  unmounted (final (loadBackupStatus env loaded)) = false
  /\ backupSigStatus (state (final (loadBackupStatus env loaded))) = Some verdict_new
  /\ effects (loadBackupStatus env loaded)
     = [SetState (patch_loading true); Start GetUpdatedDiagnostics;
        GetKeyBackupVersion; IsKeyBackupTrusted backup2;
        SetState (patch_status false (Some backup2) (Some verdict_new))].
Proof.
  split; [reflexivity |].
  destruct (loadBackupStatus_stores_sdk_verdict env loaded eq_refl) as [Hsome _].
  exact (Hsome backup2 verdict_new eq_refl eq_refl).
Defined.

Lemma deleteBackup_asks_before_deleting_witness :
  deleteBackup env_declined loaded
  = (Fulfilled tt, loaded, [CreateQuestionDialog (delete_dialog_props env_declined)])
  /\ effects (deleteBackup env loaded)
     = [CreateQuestionDialog (delete_dialog_props env); SetState (patch_loading true);
        DeleteKeyBackupVersion (Some "1")]
       ++ effects (loadBackupStatus env
                     {| unmounted := false;
                        state := apply_patch (patch_loading true) (state loaded) |})
  /\ (questionDialog env (delete_dialog_props env) = Some (Some true)
      /\ exists i, backupInfo (state loaded) = Some i /\ Some "1" = version env i).
Proof.
  destruct (deleteBackup_asks_before_deleting env_declined loaded)
    as (_ & _ & _ & Hdeclined).
  destruct (deleteBackup_asks_before_deleting env loaded)
    as (_ & Honly & Hconfirmed & _).
  split; [| split].
  - apply Hdeclined. discriminate.
  - exact (proj1 (Hconfirmed backup1 eq_refl eq_refl eq_refl)).
  - apply (Honly (Some "1")). cbv. present.
Defined.

End PanelFacts.

(** * The [unmounted] guards of both components *)
Module LifecycleFacts.

(** [componentWillUnmount] sets the flag, and nothing that reaches the
    component later clears it. *)
Lemma dialog_unmount_sets_flag (d : ExportE2eKeysDialog.Dialog) :
  ExportE2eKeysDialog.unmounted (final (ExportE2eKeysDialog.componentWillUnmount d)) = true.
Proof. reflexivity. Qed.


Lemma panel_unmount_sets_flag {IKeyBackupInfo TrustInfo : Type}
    (env : SecureBackupPanel.Env IKeyBackupInfo TrustInfo)
    (c : SecureBackupPanel.Panel IKeyBackupInfo TrustInfo) :
  SecureBackupPanel.unmounted (final (SecureBackupPanel.componentWillUnmount env c)) = true.
Proof.
  unfold SecureBackupPanel.componentWillUnmount. run_task.
  destruct (SecureBackupPanel.clientPresent env); reflexivity.
Qed.

Lemma panel_pending_keeps_flag {IKeyBackupInfo TrustInfo : Type}
    (env : SecureBackupPanel.Env IKeyBackupInfo TrustInfo)
    (f : SecureBackupPanel.Effect IKeyBackupInfo TrustInfo)
    (c : SecureBackupPanel.Panel IKeyBackupInfo TrustInfo) :
  SecureBackupPanel.unmounted c = true ->
  SecureBackupPanel.unmounted (SecureBackupPanel.pending env f c) = true.
Proof.
  unfold SecureBackupPanel.pending.
  generalize (SecureBackupPanel.meanwhile env f). intros l. revert c.
  induction l as [|a l IH]; intros c Hc; simpl; [exact Hc |].
  apply IH. destruct a as [|p]; [apply panel_unmount_sets_flag | exact Hc].
Qed.

(** C10: once the [unmounted] flag is set, the guarded continuations set no
    state.  The export-failure handler of [ExportE2eKeysDialog] logs the
    error and returns, leaving [errStr] alone; in [SecureBackupPanel] the
    continuation of [loadBackupStatus] after its awaits, its [catch] block,
    the continuation of [getUpdatedDiagnostics] and the [catch] block of
    [checkKeyBackupStatus] return without a [setState].  Seen from the
    functions as a whole: if the flag is set by the time the guard is
    reached, a failed [startExport] and [loadBackupStatus] have made no
    [setState] but the one before their first await, and
    [getUpdatedDiagnostics] and a failed [checkKeyBackupStatus] none. *)
Theorem unmounted_continuations_set_no_state :
  (forall (RoomKeys : Type) (env : ExportE2eKeysDialog.Env RoomKeys)
          (d : ExportE2eKeysDialog.Dialog) (e : JsError),
      ExportE2eKeysDialog.unmounted d = true ->
      ExportE2eKeysDialog.startExport_failed env e d
      = (Fulfilled tt, d,
         [ExportE2eKeysDialog.LoggerError "Error exporting e2e keys:" e]))
  /\ (forall (RoomKeys : Type) (env : ExportE2eKeysDialog.Env RoomKeys)
             (passphrase : string) (d : ExportE2eKeysDialog.Dialog) (e : JsError),
        DialogSpec.export_fails env passphrase e ->
        ExportE2eKeysDialog.unmounted
          (final (ExportE2eKeysDialog.startExport env passphrase d)) = true ->
        DialogSpec.state_updates (effects (ExportE2eKeysDialog.startExport env passphrase d))
        = [ExportE2eKeysDialog.SetState DialogSpec.now_exporting])
  /\ (forall (IKeyBackupInfo TrustInfo : Type)
             (c : SecureBackupPanel.Panel IKeyBackupInfo TrustInfo),
        SecureBackupPanel.unmounted c = true ->
        (forall info verdict,
           SecureBackupPanel.loadBackupStatus_resume info verdict c = (Fulfilled tt, c, []))
        /\ (forall e,
              SecureBackupPanel.loadBackupStatus_failed e c
              = (Fulfilled tt, c,
                 [SecureBackupPanel.LoggerLog "Unable to fetch key backup status" e]))
        /\ (forall stored cached wellFormed inAccount ready,
              SecureBackupPanel.getUpdatedDiagnostics_resume
                stored cached wellFormed inAccount ready c
              = (Fulfilled tt, c, []))
        /\ (forall e,
              SecureBackupPanel.checkKeyBackupStatus_failed e c
              = (Fulfilled tt, c,
                 [SecureBackupPanel.LoggerLog "Unable to fetch check backup status" e])))
  /\ (forall (IKeyBackupInfo TrustInfo : Type)
             (env : SecureBackupPanel.Env IKeyBackupInfo TrustInfo)
             (c : SecureBackupPanel.Panel IKeyBackupInfo TrustInfo),
        (SecureBackupPanel.unmounted (final (SecureBackupPanel.loadBackupStatus env c)) = true ->
         PanelSpec.state_updates (effects (SecureBackupPanel.loadBackupStatus env c))
         = [SecureBackupPanel.SetState (SecureBackupPanel.patch_loading true)])
        /\ (SecureBackupPanel.unmounted
              (final (SecureBackupPanel.getUpdatedDiagnostics env c)) = true ->
            PanelSpec.state_updates (effects (SecureBackupPanel.getUpdatedDiagnostics env c))
            = [])
        /\ (forall e,
              SecureBackupPanel.checkKeyBackup env = Rejected e ->
              SecureBackupPanel.unmounted
                (final (SecureBackupPanel.checkKeyBackupStatus env c)) = true ->
              PanelSpec.state_updates
                (effects (SecureBackupPanel.checkKeyBackupStatus env c))
              = [])).
Proof.
  split; [| split; [| split]].
  - intros RoomKeys env d e Hd.
    unfold ExportE2eKeysDialog.startExport_failed. run_task. rewrite Hd. reflexivity.
  - intros RoomKeys env passphrase d e.
    apply ExportFacts.startExport_failed_unmounted.
  - intros IKeyBackupInfo TrustInfo c Hc.
    unfold SecureBackupPanel.loadBackupStatus_resume,
      SecureBackupPanel.loadBackupStatus_failed,
      SecureBackupPanel.getUpdatedDiagnostics_resume,
      SecureBackupPanel.checkKeyBackupStatus_failed.
    run_task. rewrite Hc. repeat split.
  - intros IKeyBackupInfo TrustInfo env c. split; [| split].
    + apply PanelFacts.loadBackupStatus_unmounted.
    + apply PanelFacts.getUpdatedDiagnostics_unmounted.
    + intros e. apply PanelFacts.checkKeyBackupStatus_failed_unmounted.
Qed.

Lemma unmounted_continuations_set_no_state_witness :
  ExportE2eKeysDialog.startExport_failed Scenarios.DialogRun.env
    Scenarios.DialogRun.crypto_failed Scenarios.DialogRun.closed
  = (Fulfilled tt, Scenarios.DialogRun.closed,
     [ExportE2eKeysDialog.LoggerError "Error exporting e2e keys:"
        Scenarios.DialogRun.crypto_failed])
  /\ DialogSpec.state_updates
       (effects (ExportE2eKeysDialog.startExport Scenarios.DialogRun.env_encrypt_fails
                   "correct horse" Scenarios.DialogRun.closed))
     = [ExportE2eKeysDialog.SetState DialogSpec.now_exporting]
  /\ SecureBackupPanel.loadBackupStatus_resume None None Scenarios.PanelRun.closed
     = (Fulfilled tt, Scenarios.PanelRun.closed, [])
  /\ SecureBackupPanel.checkKeyBackupStatus_failed Scenarios.PanelRun.network_error
       Scenarios.PanelRun.closed
     = (Fulfilled tt, Scenarios.PanelRun.closed,
        [SecureBackupPanel.LoggerLog "Unable to fetch check backup status"
           Scenarios.PanelRun.network_error])
  /\ PanelSpec.state_updates
       (effects (SecureBackupPanel.loadBackupStatus Scenarios.PanelRun.env_gone_closed
                   Scenarios.PanelRun.loaded))
     = [SecureBackupPanel.SetState (SecureBackupPanel.patch_loading true)]
  /\ PanelSpec.state_updates
       (effects (SecureBackupPanel.getUpdatedDiagnostics Scenarios.PanelRun.env
                   Scenarios.PanelRun.closed))
     = [].
Proof.
  destruct unmounted_continuations_set_no_state
    as (Hhandler & Hexport & Hguards & Hpanel).
  split; [| split; [| split; [| split; [| split]]]].
  - exact (Hhandler _ Scenarios.DialogRun.env Scenarios.DialogRun.closed
             Scenarios.DialogRun.crypto_failed eq_refl).
  - apply (Hexport _ Scenarios.DialogRun.env_encrypt_fails "correct horse"
             Scenarios.DialogRun.closed Scenarios.DialogRun.crypto_failed);
      [| reflexivity].
    right. left. exists ["s1"; "s2"]. split; reflexivity.
  - destruct (Hguards _ _ Scenarios.PanelRun.closed eq_refl) as (Hresume & _).
    exact (Hresume None None).
  - destruct (Hguards _ _ Scenarios.PanelRun.closed eq_refl) as (_ & _ & _ & Hcheck).
    exact (Hcheck Scenarios.PanelRun.network_error).
  - destruct (Hpanel _ _ Scenarios.PanelRun.env_gone_closed Scenarios.PanelRun.loaded)
      as (Hload & _).
    exact (Hload eq_refl).
  - destruct (Hpanel _ _ Scenarios.PanelRun.env Scenarios.PanelRun.closed)
      as (_ & Hdiag & _).
    exact (Hdiag eq_refl).
Defined.

End LifecycleFacts.

(** * More facts about [src/utils/oidc/authorize.ts] *)
Module OidcMore.
Import Oidc OidcSpec.

Section Facts.
Context {Metadata : Type}.
Variable sdk : Env Metadata.

(** X1: when [generateOidcAuthorizationUrl] rejects, [startOidcLogin]
    rejects with the same error and [window.location] is left as it was:
    nothing is assigned to [href]. *)
Theorem startOidcLogin_rejection_leaves_location
    (delegatedAuthConfig : OidcClientConfig Metadata)
    (clientId_ homeserverUrl_ : string) (identityServerUrl_ : option string)
    (w : Location) (e : JsError) :
  let params := {| a_metadata := metadata delegatedAuthConfig;
                   a_redirectUri := origin w;
                   a_clientId := clientId_;
                   a_homeserverUrl := homeserverUrl_;
                   a_identityServerUrl := identityServerUrl_;
                   a_nonce := randomString sdk 10 |} in
  generateOidcAuthorizationUrl sdk params = Rejected e ->
  startOidcLogin sdk delegatedAuthConfig clientId_ homeserverUrl_ identityServerUrl_ w
  = (Rejected e, w, [RandomString 10; GenerateOidcAuthorizationUrl params]).
Proof.
  intros params Hrejected. unfold startOidcLogin. run_task. fold params.
  rewrite Hrejected. reflexivity.
Qed.

(** X2: [getCodeAndStateFromQueryParams] returns the pair [(code, state)]
    exactly when the dictionary holds these two non-empty strings under
    "code" and "state"; whenever it throws, it throws the one "Invalid query
    parameters" error. *)
Theorem getCodeAndStateFromQueryParams_returns_iff (q : QueryDict) :
  (forall code state,
     getCodeAndStateFromQueryParams q = Fulfilled (code, state)
     <-> nonempty_string_at q "code" code /\ nonempty_string_at q "state" state)
  /\ (forall e, getCodeAndStateFromQueryParams q = Rejected e -> e = invalid_query_error).
Proof.
  split.
  - intros code state. split.
    + intros Hq.
      destruct (OidcFacts.usable_or_not (q !! "code")) as [Hc|[c Hc]].
      { rewrite (OidcFacts.getCodeAndState_unusable q (or_introl Hc)) in Hq.
        discriminate Hq. }
      destruct (OidcFacts.usable_or_not (q !! "state")) as [Hs|[s Hs]].
      { rewrite (OidcFacts.getCodeAndState_unusable q (or_intror Hs)) in Hq.
        discriminate Hq. }
      rewrite (OidcFacts.getCodeAndState_usable q c s Hc Hs) in Hq.
      injection Hq as <- <-. split; assumption.
    + intros [Hc Hs]. apply OidcFacts.getCodeAndState_usable; assumption.
  - intros e. unfold getCodeAndStateFromQueryParams.
    destruct (_ || _); [congruence | discriminate].
Qed.

(** X3: only the entries "code" and "state" of the dictionary matter:
    setting any other parameter changes nothing about what
    [completeOidcLogin] does or returns. *)
Theorem completeOidcLogin_ignores_other_parameters
    (q : QueryDict) (k : string) (v : QueryValue) (w : Location) :
  k <> "code" -> k <> "state" ->
  completeOidcLogin sdk (<[k:=v]> q) w = completeOidcLogin sdk q w.
Proof.
  intros Hcode Hstate.
  unfold completeOidcLogin, getCodeAndStateFromQueryParams, prop.
  rewrite !lookup_insert_ne by assumption. reflexivity.
Qed.

(** [completeOidcLogin] never navigates: whatever the parameters and
    whatever the SDK answers, [window.location] is as before, and the helper
    has made no call or exactly one, to [completeAuthorizationCodeGrant]. *)
Lemma completeOidcLogin_never_navigates (q : QueryDict) (w : Location) :
  final (completeOidcLogin sdk q w) = w
  /\ (effects (completeOidcLogin sdk q w) = []
      \/ exists code state,
           effects (completeOidcLogin sdk q w) = [CompleteAuthorizationCodeGrant code state]).
Proof.
  destruct (OidcFacts.usable_or_not (q !! "code")) as [Hc|[c Hc]].
  { rewrite (OidcFacts.completeOidcLogin_unusable sdk q w (or_introl Hc)).
    split; [reflexivity | left; reflexivity]. }
  destruct (OidcFacts.usable_or_not (q !! "state")) as [Hs|[s Hs]].
  { rewrite (OidcFacts.completeOidcLogin_unusable sdk q w (or_intror Hs)).
    split; [reflexivity | left; reflexivity]. }
  rewrite (OidcFacts.completeOidcLogin_usable sdk q w c s Hc Hs).
  split; [reflexivity | right; exists c, s; reflexivity].
Qed.

End Facts.

Import Scenarios.OidcRun MoreScenarios.OidcMoreRun.

Lemma startOidcLogin_rejection_leaves_location_witness :
  startOidcLogin sdk_unreachable config "element-web" "https://matrix.example.org" None window
  = (Rejected discovery_failed, window,
     [RandomString 10;
      GenerateOidcAuthorizationUrl
        {| a_metadata := "issuer-metadata";
           a_redirectUri := "https://app.example.org";
           a_clientId := "element-web";
           a_homeserverUrl := "https://matrix.example.org";
           a_identityServerUrl := None;
           a_nonce := "q7Wm2ZpLx0" |}]).
Proof.
  apply (startOidcLogin_rejection_leaves_location sdk_unreachable config "element-web"
           "https://matrix.example.org" None window discovery_failed).
  reflexivity.
Defined.

Lemma completeOidcLogin_ignores_other_parameters_witness :
  completeOidcLogin sdk (<["session_state" := QString "9f2"]> good_query) window
  = completeOidcLogin sdk good_query window.
Proof.
  apply (completeOidcLogin_ignores_other_parameters sdk good_query "session_state"
           (QString "9f2") window); discriminate.
Defined.

End OidcMore.

(** * How the task combinators keep a property of the instance *)
Module TaskFacts.

Section Keeps.
Context {I F : Type}.
Variable P : I -> Prop.

Lemma keeps_ret {A} (a : A) : keeps P (mret a : task I F A).
Proof. intros i Hi. exact Hi. Qed.

Lemma keeps_throw {A} (e : JsError) : keeps P (throw e : task I F A).
Proof. intros i Hi. exact Hi. Qed.

Lemma keeps_settle {A} (r : settled A) : keeps P (settle r : task I F A).
Proof. intros i Hi. exact Hi. Qed.

Lemma keeps_emit (f : F) : keeps P (emit f : task I F unit).
Proof. intros i Hi. exact Hi. Qed.

Lemma keeps_call {A} (f : F) (r : settled A) : keeps P (call f r : task I F A).
Proof. intros i Hi. exact Hi. Qed.

Lemma keeps_read {A} (g : I -> A) : keeps P (read g : task I F A).
Proof. intros i Hi. exact Hi. Qed.

Lemma keeps_modify (g : I -> I) :
  (forall i, P i -> P (g i)) -> keeps P (modify g : task I F unit).
Proof. intros Hg i Hi. exact (Hg i Hi). Qed.

Lemma keeps_await {A} (meanwhile : I -> I) (f : F) (r : settled A) :
  (forall i, P i -> P (meanwhile i)) -> keeps P (await meanwhile f r : task I F A).
Proof. intros Hm i Hi. exact (Hm i Hi). Qed.

Lemma keeps_bind {A B} (m : task I F A) (k : A -> task I F B) :
  keeps P m -> (forall a, keeps P (k a)) -> keeps P (m ≫= k).
Proof.
  intros Hm Hk i Hi. specialize (Hm i Hi). unfold mbind, task_bind, bind.
  destruct (m i) as [[[a|e] i'] l]; unfold final in *; simpl in *; [| exact Hm].
  specialize (Hk a i' Hm). destruct (k a i') as [[r i''] l']. exact Hk.
Qed.

Lemma keeps_try_catch {A} (m : task I F A) (h : JsError -> task I F A) :
  keeps P m -> (forall e, keeps P (h e)) -> keeps P (try_catch m h).
Proof.
  intros Hm Hh i Hi. specialize (Hm i Hi). unfold try_catch.
  destruct (m i) as [[[a|e] i'] l]; unfold final in *; simpl in *; [exact Hm |].
  specialize (Hh e i' Hm). destruct (h e i') as [[r i''] l']. exact Hh.
Qed.


End Keeps.

End TaskFacts.

(** One step of a proof that a task keeps a property. *)
Ltac keeps_step :=
  first
    [ apply TaskFacts.keeps_bind; [| intros ?]
    | apply TaskFacts.keeps_try_catch; [| intros ?]
    | apply TaskFacts.keeps_ret
    | apply TaskFacts.keeps_throw
    | apply TaskFacts.keeps_settle
    | apply TaskFacts.keeps_emit
    | apply TaskFacts.keeps_call
    | apply TaskFacts.keeps_read
    | match goal with
      | |- keeps _ (if ?b then _ else _) => destruct b
      | |- keeps _ (match ?x with _ => _ end) => destruct x
      end ].

(** * More facts about [ExportE2eKeysDialog.tsx] *)
Module ExportMore.
Import ExportE2eKeysDialog DialogSpec.

Section Facts.
Context {RoomKeys : Type}.
Variable env : Env RoomKeys.


(** X4: a submission while neither field ref is set validates nothing and,
    if the dialog is mounted, starts the export at once with whatever
    [passphrase1] holds, the empty string included. *)
Theorem submit_without_fields_exports (d : Dialog) :
  fieldPassword d = None ->
  fieldPasswordConfirm d = None ->
  unmounted d = false ->
  onPassphraseFormSubmit env d
  = after [PreventDefault] (startExport env (passphrase1 (state d)) d).
Proof.
  intros Hfp Hfc Hmounted. rewrite ExportFacts.onPassphraseFormSubmit_run.
  unfold after_validation, validation_pass, present_fields.
  rewrite Hfp, Hfc. simpl. rewrite Hmounted. reflexivity.
Qed.

(** The state a failed export leaves in a dialog that is still mounted. *)
Lemma failed_export_state (passphrase : string) (d : Dialog) (e : JsError) :
  export_fails env passphrase e ->
  unmounted (final (startExport env passphrase d)) = false ->
  phase (state (final (startExport env passphrase d))) = Edit
  /\ errStr (state (final (startExport env passphrase d))) = Some (error_text env e).
Proof.
  intros Hfail. apply ExportFacts.export_fails_inv in Hfail. revert Hfail.
  rewrite ExportFacts.startExport_run. cbv zeta.
  destruct (exportRoomKeys env) as [k|e1];
    [| intros <-; apply ExportFacts.failed_export_outcome; [absent | reflexivity]].
  destruct (encryptMegolmKeyFile env _ passphrase) as [f|e2];
    [| intros <-; apply ExportFacts.failed_export_outcome; [absent | reflexivity]].
  intros ->. apply ExportFacts.failed_export_outcome; [absent | reflexivity].
Qed.

(** X5: after an export that failed in a dialog that is still mounted, the
    next render shows the error text and has all four controls enabled
    again, so the user can retry. *)
Theorem failed_export_reenables_form (passphrase : string) (d : Dialog) (e : JsError) :
  export_fails env passphrase e ->
  unmounted (final (startExport env passphrase d)) = false ->
  let v := render (final (startExport env passphrase d)) in
  error_text_shown v = Some (error_text env e)
  /\ submit_disabled v = false
  /\ cancel_disabled v = false
  /\ passphrase_disabled v = false
  /\ confirm_disabled v = false.
Proof.
  intros Hfail Hmounted v. subst v.
  destruct (failed_export_state passphrase d e Hfail Hmounted) as [Hphase Herr].
  unfold render. simpl. rewrite Hphase, Herr. repeat split.
Qed.


(** X7: from the form to the file.  When every present field validates,
    the dialog is still mounted afterwards and the three steps of the export
    succeed, a submission ends with the keys encrypted under [passphrase1]
    (as it is once validation is over; [passphrase2] is never used) and
    saved as "element-keys.txt". *)
Theorem submit_encrypts_with_passphrase1 (d : Dialog) (k : RoomKeys) (f : list byte) :
  let d' := after_validation env d in
  forallb (validates env) (present_fields d) = true ->
  unmounted d' = false ->
  exportRoomKeys env = Fulfilled k ->
  encryptMegolmKeyFile env (JSON_stringify env k) (passphrase1 (state d')) = Fulfilled f ->
  saveAs env (key_file f) "element-keys.txt" = Fulfilled tt ->
  outcome (onPassphraseFormSubmit env d) = Fulfilled tt
  /\ effects (onPassphraseFormSubmit env d)
     = validation_pass d
       ++ [SetState now_exporting;
           ExportRoomKeys;
           EncryptMegolmKeyFile (JSON_stringify env k) (passphrase1 (state d'));
           FileSaverSaveAs (key_file f) "element-keys.txt";
           OnFinished (Some true)].
Proof.
  intros d' Hall Hmounted Hk Hf Hs. subst d'.
  rewrite ExportFacts.onPassphraseFormSubmit_run. cbv zeta.
  rewrite (ExportFacts.find_none_forallb env _ Hall), Hmounted.
  rewrite ExportFacts.startExport_run. cbv zeta. rewrite Hk, Hf, Hs.
  split; reflexivity.
Qed.

(** The failure handler neither encrypts nor saves. *)
Lemma startExport_failed_calls (e : JsError) (d : Dialog) (x : Effect) :
  x ∈ effects (startExport_failed env e d) ->
  x = LoggerError "Error exporting e2e keys:" e \/ x = SetState (back_to_edit env e).
Proof.
  rewrite ExportFacts.startExport_failed_run.
  destruct (unmounted d); unfold effects; simpl; intros Hin.
  - apply elem_of_cons in Hin as [->|Hin]; [left; reflexivity |].
    exfalso. exact (not_elem_of_nil _ Hin).
  - apply elem_of_cons in Hin as [->|Hin]; [left; reflexivity |].
    apply elem_of_cons in Hin as [->|Hin]; [right; reflexivity |].
    exfalso. exact (not_elem_of_nil _ Hin).
Qed.

(** X8: [startExport] encrypts nothing but the keys the client exported,
    under the passphrase it was given, and saves nothing but the bytes that
    encryption returned, under the name "element-keys.txt": there is no
    encryption without exported keys and no file without a ciphertext. *)
Theorem startExport_saves_only_ciphertext (passphrase : string) (d : Dialog) :
  let r := startExport env passphrase d in
  (forall data password,
     EncryptMegolmKeyFile data password ∈ effects r ->
     password = passphrase
     /\ exists k, exportRoomKeys env = Fulfilled k /\ data = JSON_stringify env k)
  /\ (forall blob filename,
        FileSaverSaveAs blob filename ∈ effects r ->
        filename = "element-keys.txt"
        /\ exists k f,
             exportRoomKeys env = Fulfilled k
             /\ encryptMegolmKeyFile env (JSON_stringify env k) passphrase = Fulfilled f
             /\ blob = key_file f).
Proof.
  intros r. subst r. rewrite ExportFacts.startExport_run. cbv zeta.
  assert (Hhandler : forall e d' x,
            x ∈ effects (startExport_failed env e d') ->
            (forall data password, x <> EncryptMegolmKeyFile data password)
            /\ (forall blob filename, x <> FileSaverSaveAs blob filename)).
  { intros e d' x [->| ->]%startExport_failed_calls; split; discriminate. }
  destruct (exportRoomKeys env) as [k|e1].
  2:{ split; intros a b Hin; exfalso; unfold after, effects in Hin; simpl in Hin;
        repeat (apply elem_of_cons in Hin as [Hin|Hin]; [discriminate Hin |]);
        [ exact (proj1 (Hhandler _ _ _ Hin) a b eq_refl)
        | exact (proj2 (Hhandler _ _ _ Hin) a b eq_refl) ]. }
  destruct (encryptMegolmKeyFile env _ passphrase) as [f|e2] eqn:Hf.
  2:{ split; intros a b Hin; unfold after, effects in Hin; simpl in Hin.
      - apply elem_of_cons in Hin as [Hin|Hin]; [discriminate Hin |].
        apply elem_of_cons in Hin as [Hin|Hin]; [discriminate Hin |].
        apply elem_of_cons in Hin as [Hin|Hin].
        + injection Hin as -> ->. split; [reflexivity |]. exists k. split; reflexivity.
        + exfalso. exact (proj1 (Hhandler _ _ _ Hin) a b eq_refl).
      - exfalso.
        repeat (apply elem_of_cons in Hin as [Hin|Hin]; [discriminate Hin |]).
        exact (proj2 (Hhandler _ _ _ Hin) a b eq_refl). }
  destruct (saveAs env (key_file f) "element-keys.txt") as [[]|e3].
  - split; intros a b Hin; unfold effects in Hin; simpl in Hin.
    + apply elem_of_cons in Hin as [Hin|Hin]; [discriminate Hin |].
      apply elem_of_cons in Hin as [Hin|Hin]; [discriminate Hin |].
      apply elem_of_cons in Hin as [Hin|Hin].
      * injection Hin as -> ->. split; [reflexivity |]. exists k. split; reflexivity.
      * exfalso. revert Hin. absent.
    + apply elem_of_cons in Hin as [Hin|Hin]; [discriminate Hin |].
      apply elem_of_cons in Hin as [Hin|Hin]; [discriminate Hin |].
      apply elem_of_cons in Hin as [Hin|Hin]; [discriminate Hin |].
      apply elem_of_cons in Hin as [Hin|Hin].
      * injection Hin as -> ->. split; [reflexivity |]. exists k, f.
        repeat split. exact Hf.
      * exfalso. revert Hin. absent.
  - split; intros a b Hin; unfold after, effects in Hin; simpl in Hin.
    + apply elem_of_cons in Hin as [Hin|Hin]; [discriminate Hin |].
      apply elem_of_cons in Hin as [Hin|Hin]; [discriminate Hin |].
      apply elem_of_cons in Hin as [Hin|Hin].
      * injection Hin as -> ->. split; [reflexivity |]. exists k. split; reflexivity.
      * apply elem_of_cons in Hin as [Hin|Hin]; [discriminate Hin |].
        exfalso. exact (proj1 (Hhandler _ _ _ Hin) a b eq_refl).
    + apply elem_of_cons in Hin as [Hin|Hin]; [discriminate Hin |].
      apply elem_of_cons in Hin as [Hin|Hin]; [discriminate Hin |].
      apply elem_of_cons in Hin as [Hin|Hin]; [discriminate Hin |].
      apply elem_of_cons in Hin as [Hin|Hin].
      * injection Hin as -> ->. split; [reflexivity |]. exists k, f.
        repeat split. exact Hf.
      * exfalso. exact (proj2 (Hhandler _ _ _ Hin) a b eq_refl).
Qed.







End Facts.

Import Scenarios.DialogRun.

Lemma submit_without_fields_exports_witness :
  onPassphraseFormSubmit env constructor
  = after [PreventDefault] (startExport env "" constructor)
  /\ EncryptMegolmKeyFile "[s1,s2]" "" ∈ effects (onPassphraseFormSubmit env constructor).
Proof.
  assert (H : onPassphraseFormSubmit env constructor
              = after [PreventDefault] (startExport env "" constructor))
    by exact (submit_without_fields_exports env constructor eq_refl eq_refl eq_refl).
  split; [exact H |]. rewrite H. cbv. present.
Defined.

Lemma failed_export_reenables_form_witness :
  error_text_shown (render (final (startExport env_encrypt_fails "correct horse" filled)))
  = Some "Your browser does not support the required cryptography extensions"
  /\ submit_disabled (render (final (startExport env_encrypt_fails "correct horse" filled)))
     = false.
Proof.
  assert (Hfail : export_fails env_encrypt_fails "correct horse" crypto_failed).
  { right. left. exists ["s1"; "s2"]. split; reflexivity. }
  destruct (failed_export_reenables_form env_encrypt_fails "correct horse" filled
              crypto_failed Hfail eq_refl) as (Herr & Hsubmit & _).
  split; [exact Herr | exact Hsubmit].
Defined.


Lemma submit_encrypts_with_passphrase1_witness :
  effects (onPassphraseFormSubmit env filled)
  = validation_pass filled
    ++ [SetState now_exporting;
        ExportRoomKeys;
        EncryptMegolmKeyFile "[s1,s2]" "correct horse";
        FileSaverSaveAs (key_file (bytes_of "MEGOLM(correct horse)[s1,s2]"))
                        "element-keys.txt";
        OnFinished (Some true)].
Proof.
  exact (proj2 (submit_encrypts_with_passphrase1 env filled ["s1"; "s2"]
                  (bytes_of "MEGOLM(correct horse)[s1,s2]")
                  eq_refl eq_refl eq_refl eq_refl eq_refl)).
Defined.


End ExportMore.

(** * More facts about [SecureBackupPanel.tsx] *)
Module PanelMore.
Import SecureBackupPanel.

Section Facts.
Context {IKeyBackupInfo TrustInfo : Type}.
Variable env : Env IKeyBackupInfo TrustInfo.

Abbreviation Panel := (SecureBackupPanel.Panel IKeyBackupInfo TrustInfo).
Abbreviation Effect := (SecureBackupPanel.Effect IKeyBackupInfo TrustInfo).

(** The two continuations of [loadBackupStatus], run on their own. *)
Lemma loadBackupStatus_resume_run
    (info : option IKeyBackupInfo) (verdict : option TrustInfo) (c : Panel) :
  loadBackupStatus_resume info verdict c =
    if unmounted c then (Fulfilled tt, c, [])
    else (Fulfilled tt, final (setState (patch_status false info verdict) c),
          [SetState (patch_status false info verdict)]).
Proof.
  unfold loadBackupStatus_resume, setState. run_task.
  destruct (unmounted c) eqn:Hc; rewrite ?Hc; reflexivity.
Qed.

Lemma loadBackupStatus_failed_run (e : JsError) (c : Panel) :
  loadBackupStatus_failed e c =
    if unmounted c
    then (Fulfilled tt, c, [LoggerLog "Unable to fetch key backup status" e])
    else (Fulfilled tt, final (setState (patch_status true None None) c),
          [LoggerLog "Unable to fetch key backup status" e;
           SetState (patch_status true None None)]).
Proof.
  unfold loadBackupStatus_failed, setState. run_task.
  destruct (unmounted c) eqn:Hc; rewrite ?Hc; reflexivity.
Qed.

(** X10: when [getKeyBackupVersion] or [isKeyBackupTrusted] rejects,
    [loadBackupStatus] does not reject: it logs the error and, if the panel
    is still mounted, shows the error state: not loading, [error] set, and
    neither a backup nor a verdict. *)
Theorem loadBackupStatus_error_path (c : Panel) (e : JsError) :
  getKeyBackupVersion env = Rejected e
  \/ (exists info, getKeyBackupVersion env = Fulfilled (Some info)
                  /\ isKeyBackupTrusted env info = Rejected e) ->
  let r := loadBackupStatus env c in
  outcome r = Fulfilled tt
  /\ LoggerLog "Unable to fetch key backup status" e ∈ effects r
  /\ (unmounted (final r) = false ->
      loading (state (final r)) = false
      /\ error (state (final r)) = true
      /\ backupInfo (state (final r)) = None
      /\ backupSigStatus (state (final r)) = None).
Proof.
  intros Hrejects r. subst r. rewrite PanelFacts.loadBackupStatus_run. cbv zeta.
  destruct Hrejects as [-> | (info & -> & ->)]; rewrite loadBackupStatus_failed_run;
    destruct (unmounted _) eqn:Hu; unfold after, outcome, final, effects in *;
    simpl in *;
    (split; [reflexivity |]; split; [present |]);
    first [ intros Hm; congruence | intros _; repeat split ].
Qed.

(** X11: [loadBackupStatus] never rejects, and when it ends on a mounted
    panel the state is consistent: not loading; with [error] set there is
    neither backup nor verdict; without it the backup in the state is the
    one [getKeyBackupVersion] returned; and there is no verdict without a
    backup. *)
Theorem loadBackupStatus_state_invariant (c : Panel) :
  let r := loadBackupStatus env c in
  outcome r = Fulfilled tt
  /\ (unmounted (final r) = false ->
      loading (state (final r)) = false
      /\ (error (state (final r)) = true ->
          backupInfo (state (final r)) = None /\ backupSigStatus (state (final r)) = None)
      /\ (error (state (final r)) = false ->
          getKeyBackupVersion env = Fulfilled (backupInfo (state (final r))))
      /\ (is_Some (backupSigStatus (state (final r))) ->
          is_Some (backupInfo (state (final r))))).
Proof.
  intros r. subst r. rewrite PanelFacts.loadBackupStatus_run. cbv zeta.
  destruct (getKeyBackupVersion env) as [[info|]|e];
    [destruct (isKeyBackupTrusted env info) as [t|e] | |];
    rewrite ?loadBackupStatus_failed_run, ?loadBackupStatus_resume_run;
    destruct (unmounted _) eqn:Hu; unfold after, outcome, final in *; simpl in *;
    (split; [reflexivity |]);
    try (intros Hm; congruence);
    intros _; repeat split; try discriminate; try (intros []; discriminate); eauto.
Qed.

(** X12: [isKeyBackupTrusted] is asked only about the backup that
    [getKeyBackupVersion] has just returned; it is never called when there
    is none or when the fetch failed. *)
Theorem loadBackupStatus_trust_only_for_fetched_backup (c : Panel) (info : IKeyBackupInfo) :
  IsKeyBackupTrusted info ∈ effects (loadBackupStatus env c) ->
  getKeyBackupVersion env = Fulfilled (Some info).
Proof.
  rewrite PanelFacts.loadBackupStatus_run. cbv zeta.
  destruct (getKeyBackupVersion env) as [[info'|]|e];
    [destruct (isKeyBackupTrusted env info') as [t|e] | |];
    rewrite ?loadBackupStatus_failed_run, ?loadBackupStatus_resume_run;
    destruct (unmounted _); unfold after, effects; simpl; intros Hin;
    repeat (apply elem_of_cons in Hin as [Hin|Hin];
            [first [discriminate Hin | injection Hin as ->; reflexivity] |]);
    exfalso; exact (not_elem_of_nil _ Hin).
Qed.


(** X14: when [checkKeyBackup] rejects, [checkKeyBackupStatus] does not
    reject: it logs the error and, on a panel that is still mounted, shows
    the error state. *)
Theorem checkKeyBackupStatus_error_path (c : Panel) (e : JsError) :
  checkKeyBackup env = Rejected e ->
  let r := checkKeyBackupStatus env c in
  outcome r = Fulfilled tt
  /\ LoggerLog "Unable to fetch check backup status" e ∈ effects r
  /\ (unmounted (final r) = false ->
      loading (state (final r)) = false
      /\ error (state (final r)) = true
      /\ backupInfo (state (final r)) = None
      /\ backupSigStatus (state (final r)) = None).
Proof.
  intros Hrejected r. subst r.
  unfold checkKeyBackupStatus, checkKeyBackupStatus_failed, awaiting, start, setState.
  run_task. rewrite Hrejected. simpl.
  destruct (unmounted (pending env CheckKeyBackup c)) eqn:Hu; simpl;
    (split; [reflexivity |]; split; [present |]);
    first [ intros Hm; congruence | intros _; repeat split ].
Qed.

(** [getUpdatedDiagnostics], run as a whole: it stops at the first call
    that rejects. *)
Lemma getUpdatedDiagnostics_run (c : Panel) :
  getUpdatedDiagnostics env c =
    if negb (hasCrypto env) then (Fulfilled tt, c, [GetCrypto])
    else
      let c1 := pending env IsKeyBackupKeyStored c in
      match isKeyBackupKeyStored env with
      | Rejected e => (Rejected e, c1, [GetCrypto; IsKeyBackupKeyStored])
      | Fulfilled stored =>
          let c2 := pending env GetSessionBackupPrivateKey c1 in
          match getSessionBackupPrivateKey env with
          | Rejected e =>
              (Rejected e, c2,
               [GetCrypto; IsKeyBackupKeyStored; GetSessionBackupPrivateKey])
          | Fulfilled key =>
              let c3 := pending env SecretStorageHasKey c2 in
              match secretStorageHasKey env with
              | Rejected e =>
                  (Rejected e, c3,
                   [GetCrypto; IsKeyBackupKeyStored; GetSessionBackupPrivateKey;
                    SecretStorageHasKey])
              | Fulfilled inAccount =>
                  let c4 := pending env IsSecretStorageReady c3 in
                  match isSecretStorageReady env with
                  | Rejected e =>
                      (Rejected e, c4,
                       [GetCrypto; IsKeyBackupKeyStored; GetSessionBackupPrivateKey;
                        SecretStorageHasKey; IsSecretStorageReady])
                  | Fulfilled ready =>
                      after [GetCrypto; IsKeyBackupKeyStored; GetSessionBackupPrivateKey;
                             SecretStorageHasKey; IsSecretStorageReady]
                            (getUpdatedDiagnostics_resume
                               (bool_decide (is_Some stored))
                               (bool_decide (is_Some key))
                               (instanceof_Uint8Array key) inAccount ready c4)
                  end
              end
          end
      end.
Proof.
  unfold getUpdatedDiagnostics, awaiting, after. run_task.
  destruct (hasCrypto env); simpl; [| reflexivity].
  destruct (isKeyBackupKeyStored env) as [stored|e]; simpl; [| reflexivity].
  destruct (getSessionBackupPrivateKey env) as [key|e]; simpl; [| reflexivity].
  destruct (secretStorageHasKey env) as [inAccount|e]; simpl; [| reflexivity].
  destruct (isSecretStorageReady env) as [ready|e]; simpl; [| reflexivity].
  destruct (getUpdatedDiagnostics_resume _ _ _ _ _ _) as [[o c'] l]. reflexivity.
Qed.

Lemma getUpdatedDiagnostics_resume_run
    (stored cached wellFormed inAccount ready : bool) (c : Panel) :
  getUpdatedDiagnostics_resume stored cached wellFormed inAccount ready c =
    if unmounted c then (Fulfilled tt, c, [])
    else
      (Fulfilled tt,
       final (setState (patch_diagnostics stored cached wellFormed inAccount ready) c),
       [SetState (patch_diagnostics stored cached wellFormed inAccount ready)]).
Proof.
  unfold getUpdatedDiagnostics_resume, setState. run_task.
  destruct (unmounted c) eqn:Hc; rewrite ?Hc; reflexivity.
Qed.

(** X15: without a crypto module ([getCrypto()] returns nothing)
    [getUpdatedDiagnostics] returns at once: it asks the SDK nothing more
    and leaves the state alone. *)
Theorem getUpdatedDiagnostics_without_crypto (c : Panel) :
  hasCrypto env = false ->
  getUpdatedDiagnostics env c = (Fulfilled tt, c, [GetCrypto]).
Proof.
  intros Hnone. rewrite getUpdatedDiagnostics_run, Hnone. reflexivity.
Qed.

(** X16: whatever [getUpdatedDiagnostics] sets, it sets only the five
    diagnostics (never [loading], [error], the backup, the verdict or the
    counter), and never reports a key as well formed that it reports as not
    cached. *)
Theorem getUpdatedDiagnostics_patch_shape
    (c : Panel) (p : Patch IKeyBackupInfo TrustInfo) :
  SetState p ∈ effects (getUpdatedDiagnostics env c) ->
  Readings.only_diagnostics p
  /\ (p_backupKeyWellFormed p = Some (Some true) ->
      p_backupKeyCached p = Some (Some true)).
Proof.
  rewrite getUpdatedDiagnostics_run.
  destruct (hasCrypto env); simpl; [| never].
  destruct (isKeyBackupKeyStored env) as [stored|e]; [| never].
  destruct (getSessionBackupPrivateKey env) as [key|e]; [| never].
  destruct (secretStorageHasKey env) as [inAccount|e]; [| never].
  destruct (isSecretStorageReady env) as [ready|e]; [| never].
  rewrite getUpdatedDiagnostics_resume_run.
  destruct (unmounted _); unfold after, effects; simpl; [never |].
  intros Hin.
  repeat (apply elem_of_cons in Hin as [Hin|Hin]; [try discriminate Hin |]);
    [| exfalso; exact (not_elem_of_nil _ Hin)].
  injection Hin as ->. split; [repeat split |].
  simpl. destruct key as [[b|s']|]; simpl; [reflexivity | discriminate | discriminate].
Qed.

(** X17: when one of the four SDK calls of [getUpdatedDiagnostics] rejects,
    the method rejects with that error, has asked nothing after the call
    that failed, and has set no state. *)
Theorem getUpdatedDiagnostics_rejection (c : Panel) (e : JsError) :
  outcome (getUpdatedDiagnostics env c) = Rejected e ->
  PanelSpec.state_updates (effects (getUpdatedDiagnostics env c)) = []
  /\ exists last_call,
       last (effects (getUpdatedDiagnostics env c)) = Some last_call
       /\ (last_call = IsKeyBackupKeyStored /\ isKeyBackupKeyStored env = Rejected e
           \/ last_call = GetSessionBackupPrivateKey
              /\ getSessionBackupPrivateKey env = Rejected e
           \/ last_call = SecretStorageHasKey /\ secretStorageHasKey env = Rejected e
           \/ last_call = IsSecretStorageReady /\ isSecretStorageReady env = Rejected e).
Proof.
  rewrite getUpdatedDiagnostics_run.
  destruct (hasCrypto env); simpl; [| discriminate].
  destruct (isKeyBackupKeyStored env) as [stored|e1].
  2:{ unfold outcome; simpl. intros [= ->]. split; [reflexivity |].
      eexists. split; [reflexivity |]. left. split; reflexivity. }
  destruct (getSessionBackupPrivateKey env) as [key|e2].
  2:{ unfold outcome; simpl. intros [= ->]. split; [reflexivity |].
      eexists. split; [reflexivity |].
      right. left. split; reflexivity. }
  destruct (secretStorageHasKey env) as [inAccount|e3].
  2:{ unfold outcome; simpl. intros [= ->]. split; [reflexivity |].
      eexists. split; [reflexivity |].
      right. right. left. split; reflexivity. }
  destruct (isSecretStorageReady env) as [ready|e4].
  2:{ unfold outcome; simpl. intros [= ->]. split; [reflexivity |].
      eexists. split; [reflexivity |].
      right. right. right. split; reflexivity. }
  rewrite getUpdatedDiagnostics_resume_run.
  destruct (unmounted _); unfold after, outcome; simpl; discriminate.
Qed.

(** X18: confirming the deletion while the state holds no backup throws
    (reading [version] of [null]) after [loading] has been set: the SDK is
    not asked to delete anything and the status is not loaded again. *)
Theorem deleteBackup_without_backup_throws (c : Panel) :
  let props := delete_dialog_props env in
  let c1 := pending env (CreateQuestionDialog props) c in
  questionDialog env props = Some (Some true) ->
  backupInfo (state c1) = None ->
  deleteBackup env c
  = (Rejected null_backup_error, final (setState (patch_loading true) c1),
     [CreateQuestionDialog props; SetState (patch_loading true)]).
Proof.
  intros props c1 Hyes Hnone. rewrite PanelFacts.deleteBackup_run. cbv zeta.
  fold props. fold c1. rewrite Hyes, Hnone. reflexivity.
Qed.

(** X19: when [deleteKeyBackupVersion] rejects, [deleteBackup] rejects with
    that error right after the call: the status is not loaded again, so
    nothing takes back the [loading: true] that was set before the call. *)
Theorem deleteBackup_rejected_no_reload (c : Panel) (info : IKeyBackupInfo) (e : JsError) :
  let props := delete_dialog_props env in
  let c1 := pending env (CreateQuestionDialog props) c in
  questionDialog env props = Some (Some true) ->
  backupInfo (state c1) = Some info ->
  deleteKeyBackupVersion env (version env info) = Rejected e ->
  deleteBackup env c
  = (Rejected e,
     pending env (DeleteKeyBackupVersion (version env info))
       (final (setState (patch_loading true) c1)),
     [CreateQuestionDialog props; SetState (patch_loading true);
      DeleteKeyBackupVersion (version env info)]).
Proof.
  intros props c1 Hyes Hinfo Hrejected. rewrite PanelFacts.deleteBackup_run. cbv zeta.
  fold props. fold c1. rewrite Hyes, Hinfo, Hrejected. reflexivity.
Qed.

(** X20: the listeners are balanced.  [componentDidMount] registers one
    listener for each of the two crypto events; [componentWillUnmount] sets
    the flag and, when the client is still there, removes a listener for
    exactly these events, in the same order; when the client is gone it
    removes none. *)
Theorem listeners_balanced (c : Panel) :
  unmounted (final (componentWillUnmount env c)) = true
  /\ state (final (componentWillUnmount env c)) = state c
  /\ Readings.removed (effects (componentWillUnmount env c))
     = (if clientPresent env
        then Readings.registered (effects (@componentDidMount IKeyBackupInfo TrustInfo c))
        else [])
  /\ Readings.registered (effects (@componentDidMount IKeyBackupInfo TrustInfo c))
     = [KeyBackupStatus; KeyBackupSessionsRemaining].
Proof.
  unfold componentWillUnmount, componentDidMount, start. run_task.
  destruct (clientPresent env); repeat split.
Qed.

(** The methods of the panel keep the [unmounted] flag once it is set. *)
Lemma panel_setState_keeps_unmounted (p : Patch IKeyBackupInfo TrustInfo) :
  keeps (fun c : Panel => unmounted c = true) (setState p).
Proof.
  unfold setState. repeat keeps_step. apply TaskFacts.keeps_modify.
  intros c Hc. exact Hc.
Qed.

Lemma panel_awaiting_keeps_unmounted {A} (f : Effect) (r : settled A) :
  keeps (fun c : Panel => unmounted c = true) (awaiting env f r).
Proof.
  apply TaskFacts.keeps_await. intros c Hc.
  exact (LifecycleFacts.panel_pending_keeps_flag env f c Hc).
Qed.

Lemma loadBackupStatus_keeps_unmounted :
  keeps (fun c : Panel => unmounted c = true) (loadBackupStatus env).
Proof.
  unfold loadBackupStatus, loadBackupStatus_resume, loadBackupStatus_failed, start.
  repeat first [ apply panel_setState_keeps_unmounted
               | apply panel_awaiting_keeps_unmounted
               | keeps_step ].
Qed.

Lemma getUpdatedDiagnostics_keeps_unmounted :
  keeps (fun c : Panel => unmounted c = true) (getUpdatedDiagnostics env).
Proof.
  unfold getUpdatedDiagnostics, getUpdatedDiagnostics_resume.
  repeat first [ apply panel_setState_keeps_unmounted
               | apply panel_awaiting_keeps_unmounted
               | keeps_step ].
Qed.

Lemma checkKeyBackupStatus_keeps_unmounted :
  keeps (fun c : Panel => unmounted c = true) (checkKeyBackupStatus env).
Proof.
  unfold checkKeyBackupStatus, checkKeyBackupStatus_failed, start.
  repeat first [ apply panel_setState_keeps_unmounted
               | apply panel_awaiting_keeps_unmounted
               | keeps_step ].
Qed.

Lemma deleteBackup_keeps_unmounted :
  keeps (fun c : Panel => unmounted c = true) (deleteBackup env).
Proof.
  unfold deleteBackup, deleteBackup_onFinished.
  repeat first [ apply panel_setState_keeps_unmounted
               | apply panel_awaiting_keeps_unmounted
               | apply loadBackupStatus_keeps_unmounted
               | keeps_step ].
Qed.

(** X21: no method of the panel clears the [unmounted] flag: a panel that
    is unmounted when [loadBackupStatus], [checkKeyBackupStatus],
    [getUpdatedDiagnostics] or [deleteBackup] starts is unmounted when it
    ends, whatever the SDK answers and whatever happens meanwhile. *)
Theorem unmounted_panel_stays_unmounted (c : Panel) :
  unmounted c = true ->
  unmounted (final (loadBackupStatus env c)) = true
  /\ unmounted (final (checkKeyBackupStatus env c)) = true
  /\ unmounted (final (getUpdatedDiagnostics env c)) = true
  /\ unmounted (final (deleteBackup env c)) = true.
Proof.
  intros Hc. repeat split.
  - exact (loadBackupStatus_keeps_unmounted c Hc).
  - exact (checkKeyBackupStatus_keeps_unmounted c Hc).
  - exact (getUpdatedDiagnostics_keeps_unmounted c Hc).
  - exact (deleteBackup_keeps_unmounted c Hc).
Qed.

End Facts.

Import Scenarios.PanelRun MoreScenarios.PanelView.

Lemma loadBackupStatus_error_path_witness :
  outcome (loadBackupStatus env_offline loaded) = Fulfilled tt
  /\ error (state (final (loadBackupStatus env_offline loaded))) = true
  /\ backupInfo (state (final (loadBackupStatus env_offline loaded))) = None.
Proof.
  destruct (loadBackupStatus_error_path env_offline loaded network_error
              (or_introl eq_refl)) as (Hout & _ & Hstate).
  destruct (Hstate eq_refl) as (_ & Herror & Hinfo & _).
  split; [exact Hout | split; [exact Herror | exact Hinfo]].
Defined.

Lemma loadBackupStatus_trust_only_for_fetched_backup_witness :
  IsKeyBackupTrusted backup2 ∈ effects (loadBackupStatus env loaded)
  /\ getKeyBackupVersion env = Fulfilled (Some backup2).
Proof.
  assert (Hin : IsKeyBackupTrusted backup2 ∈ effects (loadBackupStatus env loaded))
    by (cbv; present).
  split; [exact Hin |].
  exact (loadBackupStatus_trust_only_for_fetched_backup env loaded backup2 Hin).
Defined.


Lemma checkKeyBackupStatus_error_path_witness :
  outcome (checkKeyBackupStatus env_offline loaded) = Fulfilled tt
  /\ error (state (final (checkKeyBackupStatus env_offline loaded))) = true
  /\ backupSigStatus (state (final (checkKeyBackupStatus env_offline loaded))) = None.
Proof.
  destruct (checkKeyBackupStatus_error_path env_offline loaded network_error eq_refl)
    as (Hout & _ & Hstate).
  destruct (Hstate eq_refl) as (_ & Herror & _ & Hverdict).
  split; [exact Hout | split; [exact Herror | exact Hverdict]].
Defined.

Lemma getUpdatedDiagnostics_without_crypto_witness :
  getUpdatedDiagnostics env_no_crypto loaded = (Fulfilled tt, loaded, [GetCrypto]).
Proof.
  exact (getUpdatedDiagnostics_without_crypto env_no_crypto loaded eq_refl).
Defined.

Lemma getUpdatedDiagnostics_patch_shape_witness :
  SetState (patch_diagnostics true true true true true)
  ∈ effects (getUpdatedDiagnostics env empty)
  /\ Readings.only_diagnostics (patch_diagnostics (IKeyBackupInfo := Backup)
                                  (TrustInfo := Trust) true true true true true).
Proof.
  assert (Hin : SetState (patch_diagnostics true true true true true)
                ∈ effects (getUpdatedDiagnostics env empty))
    by (cbv; present).
  split; [exact Hin |].
  exact (proj1 (getUpdatedDiagnostics_patch_shape env empty _ Hin)).
Defined.

Lemma getUpdatedDiagnostics_rejection_witness :
  outcome (getUpdatedDiagnostics env_offline loaded) = Rejected network_error
  /\ PanelSpec.state_updates (effects (getUpdatedDiagnostics env_offline loaded)) = [].
Proof.
  split; [reflexivity |].
  exact (proj1 (getUpdatedDiagnostics_rejection env_offline loaded network_error eq_refl)).
Defined.

Lemma deleteBackup_without_backup_throws_witness :
  deleteBackup env empty
  = (Rejected null_backup_error,
     {| unmounted := false; state := apply_patch (patch_loading true) (state empty) |},
     [CreateQuestionDialog (delete_dialog_props env); SetState (patch_loading true)]).
Proof.
  exact (deleteBackup_without_backup_throws env empty eq_refl eq_refl).
Defined.

Lemma deleteBackup_rejected_no_reload_witness :
  outcome (deleteBackup env_offline loaded) = Rejected network_error
  /\ effects (deleteBackup env_offline loaded)
     = [CreateQuestionDialog (delete_dialog_props env_offline);
        SetState (patch_loading true); DeleteKeyBackupVersion (Some "1")]
  /\ loading (state (final (deleteBackup env_offline loaded))) = true.
Proof.
  rewrite (deleteBackup_rejected_no_reload env_offline loaded backup1 network_error
             eq_refl eq_refl eq_refl).
  repeat split.
Defined.

Lemma unmounted_panel_stays_unmounted_witness :
  unmounted (final (loadBackupStatus env closed)) = true
  /\ unmounted (final (deleteBackup env closed)) = true.
Proof.
  destruct (unmounted_panel_stays_unmounted env closed eq_refl) as (Hload & _ & _ & Hdelete).
  split; [exact Hload | exact Hdelete].
Defined.

End PanelMore.

(** * Facts about what [SecureBackupPanel.render] shows *)
Module ViewFacts.
Import SecureBackupPanel SecureBackupPanelView.

Section Facts.
Context {IKeyBackupInfo TrustInfo : Type}.
Variable env : Env IKeyBackupInfo TrustInfo.
Variable renv : RenderEnv IKeyBackupInfo TrustInfo.

Abbreviation Panel := (SecureBackupPanel.Panel IKeyBackupInfo TrustInfo).

(** X22: the buttons of the panel.  "Restore" is offered exactly when the
    status has loaded without error and there is a backup; "Delete" under
    the same condition unless secure backup is required; "Set up" exactly
    when the status has loaded without error and there is no backup; "Reset"
    exactly when the secret storage key is in the account.  The buttons have
    distinct keys, and while the panel loads or shows an error none but
    "Reset" is there. *)
Theorem render_offers (c : Panel) :
  let v := render env renv c in
  let s := state c in
  let loaded := negb (error s) && negb (loading s) in
  offers v RestoreBackup = loaded && bool_decide (is_Some (backupInfo s))
  /\ offers v DeleteBackup
     = loaded && bool_decide (is_Some (backupInfo s)) && negb (isSecureBackupRequired renv)
  /\ offers v StartNewBackup = loaded && negb (bool_decide (is_Some (backupInfo s)))
  /\ offers v ResetSecretStorage = truthy (secretStorageKeyInAccount s)
  /\ NoDup (map key (buttons v)).
Proof.
  destruct c as [u [ld er st ca wf [[|]|] rd [info|] sig n]];
    unfold render, offers, buttons; simpl;
    destruct er, ld, (isSecureBackupRequired renv), (truthy (getKeyBackupEnabled renv));
    simpl; repeat split;
    repeat (apply NoDup_cons; split; [absent |]); apply NoDup_nil_2.
Qed.

(** X23: the upload line follows the counter.  On a panel that shows a
    backup, after [onKeyBackupSessionsRemaining(n)] the next render shows
    nothing when the client's backup is off, "Backing up n keys" when it is
    on and [n] is positive, and "All keys backed up" otherwise (zero and
    negative counts included); the status, the backup rows, the trust line
    and the buttons are as before. *)
Theorem render_upload_follows_counter (c : Panel) (n : Z) (info : IKeyBackupInfo) :
  error (state c) = false ->
  loading (state c) = false ->
  backupInfo (state c) = Some info ->
  let v := render env renv c in
  let v' := render env renv (final (onKeyBackupSessionsRemaining n c)) in
  uploadStatus <$> extraDetails v'
  = Some (if negb (truthy (getKeyBackupEnabled renv)) then UploadNothing
          else if (0 <? n)%Z
               then UploadBackingUp (_t env "Backing up %(sessionsRemaining)s keys…") n
               else UploadAllBackedUp (_t env "All keys backed up"))
  /\ trustedLocally <$> extraDetails v' = trustedLocally <$> extraDetails v
  /\ statusDescription v' = statusDescription v
  /\ extraDetailsTableRows v' = extraDetailsTableRows v
  /\ actionRow v' = actionRow v.
Proof.
  intros Herror Hloading Hinfo v v'. subst v v'.
  unfold onKeyBackupSessionsRemaining, setState. run_task.
  unfold render. simpl. rewrite Herror, Hloading, Hinfo. simpl.
  destruct (truthy (getKeyBackupEnabled renv)); repeat split.
Qed.

(** X24: from the SDK to the screen.  After [loadBackupStatus] has fetched
    a backup and its verdict on a panel that is still mounted, the next
    render shows the version and the algorithm of that backup, shows the
    trust line exactly when the SDK's verdict has [trusted_locally], and
    offers "Restore" and not "Set up"; after it has found no backup, the
    render shows no backup details and offers "Set up" and neither "Restore"
    nor "Delete". *)
Theorem render_after_load (c : Panel) :
  let r := loadBackupStatus env c in
  let v := render env renv (final r) in
  unmounted (final r) = false ->
  (forall info verdict,
     getKeyBackupVersion env = Fulfilled (Some info) ->
     isKeyBackupTrusted env info = Fulfilled verdict ->
     extraDetailsTableRows v
     = Some {| row_version := version env info; row_algorithm := algorithm renv info |}
     /\ trustedLocally <$> extraDetails v
        = Some (if truthy (trusted_locally renv verdict)
                then Some (_t env "This backup is trusted because it has been restored on this session")
                else None)
     /\ offers v RestoreBackup = true
     /\ offers v StartNewBackup = false)
  /\ (getKeyBackupVersion env = Fulfilled None ->
      extraDetailsTableRows v = None
      /\ extraDetails v = None
      /\ offers v StartNewBackup = true
      /\ offers v RestoreBackup = false
      /\ offers v DeleteBackup = false).
Proof.
  intros r v. subst r v. rewrite PanelFacts.loadBackupStatus_run. cbv zeta.
  intros Hmounted. split.
  - intros info verdict Hinfo Hverdict. rewrite Hinfo, Hverdict in *.
    rewrite PanelMore.loadBackupStatus_resume_run in *.
    destruct (unmounted (pending env (IsKeyBackupTrusted info) _)) eqn:Hu;
      unfold after, final in *; simpl in *; [congruence |].
    unfold render, offers, buttons. simpl.
    destruct (truthy (getKeyBackupEnabled renv)), (isSecureBackupRequired renv),
      (truthy (trusted_locally renv verdict)),
      (truthy (secretStorageKeyInAccount _)); repeat split.
  - intros Hnone. rewrite Hnone in *.
    rewrite PanelMore.loadBackupStatus_resume_run in *.
    destruct (unmounted (pending env GetKeyBackupVersion _)) eqn:Hu;
      unfold after, final in *; simpl in *; [congruence |].
    unfold render, offers, buttons. simpl.
    destruct (truthy (secretStorageKeyInAccount _)); repeat split.
Qed.

(** X25: after a [loadBackupStatus] that failed on a panel that is still
    mounted, the next render shows the error text, no backup details, and
    none of "Restore", "Delete" and "Set up". *)
Theorem render_after_failed_load (c : Panel) (e : JsError) :
  let r := loadBackupStatus env c in
  let v := render env renv (final r) in
  getKeyBackupVersion env = Rejected e
  \/ (exists info, getKeyBackupVersion env = Fulfilled (Some info)
                  /\ isKeyBackupTrusted env info = Rejected e) ->
  unmounted (final r) = false ->
  statusDescription v = StatusError (_t env "Unable to load key backup status")
  /\ extraDetailsTableRows v = None
  /\ extraDetails v = None
  /\ offers v RestoreBackup = false
  /\ offers v DeleteBackup = false
  /\ offers v StartNewBackup = false.
Proof.
  intros r v Hrejects. subst r v. rewrite PanelFacts.loadBackupStatus_run. cbv zeta.
  destruct Hrejects as [-> | (info & -> & ->)];
    rewrite PanelMore.loadBackupStatus_failed_run;
    match goal with
    | |- context [if unmounted ?x then _ else _] => destruct (unmounted x) eqn:Hu
    end;
    unfold after, final in *; simpl in *;
    intros Hmounted; try congruence;
    unfold render, offers, buttons; simpl;
    destruct (truthy (secretStorageKeyInAccount _)); repeat split.
Qed.

(** X26: the "Delete" button is safe to confirm.  If a render offers
    "Delete" and nothing reaches the panel while the confirmation dialog is
    open, then a confirmed [deleteBackup] does not stop at a missing backup:
    it asks the SDK to delete the very version that the render shows. *)
Theorem delete_button_deletes_shown_version (c : Panel) :
  let v := render env renv c in
  offers v DeleteBackup = true ->
  meanwhile env (CreateQuestionDialog (delete_dialog_props env)) = [] ->
  questionDialog env (delete_dialog_props env) = Some (Some true) ->
  exists rows,
    extraDetailsTableRows v = Some rows
    /\ DeleteKeyBackupVersion (row_version rows) ∈ effects (deleteBackup env c).
Proof.
  intros v Hoffered Hquiet Hyes. subst v.
  rewrite PanelFacts.deleteBackup_run. cbv zeta. rewrite Hyes.
  unfold pending. rewrite Hquiet. simpl.
  revert Hoffered. unfold render, offers, buttons.
  destruct c as [u [ld er st ca wf ia rd [info|] sig n]]; simpl;
    destruct er, ld, (truthy (getKeyBackupEnabled renv)), (isSecureBackupRequired renv),
      (truthy ia);
    simpl; try discriminate;
    (intros _; eexists; split; [reflexivity |]; simpl;
     destruct (deleteKeyBackupVersion env (version env info)) as [[]|e'];
     [ destruct (loadBackupStatus env _) as [[o c'] l]; unfold after, effects; simpl; present
     | unfold effects; simpl; present ]).
Qed.


End Facts.

Import Scenarios.PanelRun MoreScenarios.PanelView.

Lemma render_upload_follows_counter_witness :
  uploadStatus
    <$> extraDetails (render env renv (final (onKeyBackupSessionsRemaining 12 loaded)))
  = Some (UploadBackingUp "Backing up %(sessionsRemaining)s keys…" 12)
  /\ uploadStatus
       <$> extraDetails (render env renv (final (onKeyBackupSessionsRemaining (-1) loaded)))
     = Some (UploadAllBackedUp "All keys backed up").
Proof.
  split.
  - exact (proj1 (render_upload_follows_counter env renv loaded 12 backup1
                    eq_refl eq_refl eq_refl)).
  - exact (proj1 (render_upload_follows_counter env renv loaded (-1) backup1
                    eq_refl eq_refl eq_refl)).
Defined.

Lemma render_after_load_witness :
  extraDetailsTableRows (render env renv (final (loadBackupStatus env loaded)))
  = Some {| row_version := Some "2";
            row_algorithm := "m.megolm_backup.v1.curve25519-aes-sha2" |}
  /\ offers (render env renv (final (loadBackupStatus env loaded))) RestoreBackup = true.
Proof.
  destruct (render_after_load env renv loaded eq_refl) as [Hfound _].
  destruct (Hfound backup2 verdict_new eq_refl eq_refl) as (Hrows & _ & Hrestore & _).
  split; [exact Hrows | exact Hrestore].
Defined.

Lemma render_after_failed_load_witness :
  statusDescription (render env_offline renv (final (loadBackupStatus env_offline loaded)))
  = StatusError "Unable to load key backup status"
  /\ offers (render env_offline renv (final (loadBackupStatus env_offline loaded)))
            RestoreBackup = false.
Proof.
  destruct (render_after_failed_load env_offline renv loaded network_error
              (or_introl eq_refl) eq_refl) as (Hstatus & _ & _ & Hrestore & _).
  split; [exact Hstatus | exact Hrestore].
Defined.

Lemma delete_button_deletes_shown_version_witness :
  offers (render env renv loaded) DeleteBackup = true
  /\ exists rows,
       extraDetailsTableRows (render env renv loaded) = Some rows
       /\ DeleteKeyBackupVersion (row_version rows) ∈ effects (deleteBackup env loaded).
Proof.
  split; [reflexivity |].
  exact (delete_button_deletes_shown_version env renv loaded eq_refl eq_refl eq_refl).
Defined.


End ViewFacts.

(** * Facts about the other handlers of [SecureBackupPanel] *)
Module ActionFacts.
Import SecureBackupPanel SecureBackupPanelActions.

Section Facts.
Context {IKeyBackupInfo TrustInfo : Type}.
Variable env : Env IKeyBackupInfo TrustInfo.
Variable aenv : ActionEnv IKeyBackupInfo TrustInfo.

Abbreviation Panel := (SecureBackupPanel.Panel IKeyBackupInfo TrustInfo).

(** [resetSecretStorage], run as a whole. *)
Lemma resetSecretStorage_run (c : Panel) :
  resetSecretStorage env aenv c =
    let c2 := pending_action env aenv (AccessSecretStorage true)
                (final (setState (patch_error false) c)) in
    let begun := [Base (SetState (patch_error false)); AccessSecretStorage true] in
    match accessSecretStorage aenv true with
    | Fulfilled _ =>
        if unmounted c2 then (Fulfilled tt, c2, begun)
        else after begun (base (loadBackupStatus env) c2)
    | Rejected e =>
        if unmounted c2
        then (Fulfilled tt, c2, begun ++ [LoggerError "Error resetting secret storage" e])
        else after (begun ++ [LoggerError "Error resetting secret storage" e;
                              Base (SetState (patch_error true))])
                   (base (loadBackupStatus env) (final (setState (patch_error true) c2)))
    end.
Proof.
  unfold resetSecretStorage, resetSecretStorage_attempt, awaiting_action, base, setState,
    after.
  run_task.
  destruct (accessSecretStorage aenv true) as [[]|e]; simpl;
    destruct (unmounted (pending_action env aenv (AccessSecretStorage true) _)) eqn:Hu;
    simpl; rewrite ?Hu; simpl; try reflexivity;
    destruct (loadBackupStatus env _) as [[o c'] l]; reflexivity.
Qed.

(** X28: a failed reset is reported only for a moment.  When
    [accessSecretStorage] rejects on a panel that stays mounted, the error
    is logged and [error] is set, but the status is then loaded again all
    the same; if that load succeeds, it clears [error], and the panel ends
    without any sign of the failed reset. *)
Theorem resetSecretStorage_failure_is_overwritten (c : Panel) (e : JsError) :
  accessSecretStorage aenv true = Rejected e ->
  getKeyBackupVersion env = Fulfilled None
  \/ (exists info verdict, getKeyBackupVersion env = Fulfilled (Some info)
                          /\ isKeyBackupTrusted env info = Fulfilled verdict) ->
  let r := resetSecretStorage env aenv c in
  unmounted (final r) = false ->
  (exists before rest,
     effects r = before ++ [LoggerError "Error resetting secret storage" e;
                            Base (SetState (patch_error true));
                            Base (SetState (patch_loading true))] ++ rest)
  /\ error (state (final r)) = false
  /\ loading (state (final r)) = false.
Proof.
  intros Hrejected Hloads r. subst r. rewrite resetSecretStorage_run. cbv zeta.
  rewrite Hrejected.
  destruct (unmounted (pending_action env aenv (AccessSecretStorage true) _)) eqn:Hu.
  { unfold final in *. simpl in *. intros Hm. congruence. }
  unfold after, base. rewrite PanelFacts.loadBackupStatus_run. cbv zeta.
  destruct Hloads as [-> | (info & verdict & -> & ->)];
    rewrite PanelMore.loadBackupStatus_resume_run;
    match goal with
    | |- context [if unmounted ?x then _ else _] => destruct (unmounted x) eqn:Hu'
    end;
    unfold after, final, effects, outcome in *; simpl in *;
    intros Hm; try congruence;
    (split; [| split; reflexivity]);
    eexists [_; _], _; reflexivity.
Qed.

(** X29: a panel that is unmounted by the time [accessSecretStorage]
    settles does nothing more: it sets no state (the failure, if any, is
    only logged) and does not load the status again. *)
Theorem resetSecretStorage_unmounted_stops (c : Panel) :
  let c2 := pending_action env aenv (AccessSecretStorage true)
              (final (setState (patch_error false) c)) in
  unmounted c2 = true ->
  resetSecretStorage env aenv c
  = (Fulfilled tt, c2,
     [Base (SetState (patch_error false)); AccessSecretStorage true]
     ++ match accessSecretStorage aenv true with
        | Fulfilled _ => []
        | Rejected e => [LoggerError "Error resetting secret storage" e]
        end).
Proof.
  intros c2 Hu. subst c2. rewrite resetSecretStorage_run. cbv zeta. rewrite Hu.
  destruct (accessSecretStorage aenv true) as [[]|e]; reflexivity.
Qed.

(** X30: [startNewBackup] loads the status again when the dialog for a new
    backup finishes, and only then; this reload is not guarded: it begins
    with [setState({ loading: true })] on an unmounted panel too. *)
Theorem startNewBackup_reloads_when_finished (c : Panel) :
  let opened := CreateDialogAsync CreateKeyBackupDialog false true in
  let c1 := pending_action env aenv opened c in
  (createKeyBackupDialog aenv = None ->
   startNewBackup env aenv c = (Fulfilled tt, c1, [opened]))
  /\ (createKeyBackupDialog aenv = Some tt ->
      startNewBackup env aenv c = after [opened] (base (loadBackupStatus env) c1)
      /\ exists rest,
           effects (startNewBackup env aenv c)
           = opened :: Base (SetState (patch_loading true)) :: rest).
Proof.
  intros opened c1. subst opened c1.
  unfold startNewBackup, awaiting_action. run_task.
  split; intros ->; simpl; [reflexivity |].
  unfold after, base.
  pose proof (PanelFacts.loadBackupStatus_run env
                (pending_action env aenv (CreateDialogAsync CreateKeyBackupDialog false true) c))
    as Hrun.
  destruct (loadBackupStatus env _) as [[o c'] l]. simpl. split; [reflexivity |].
  cbv zeta in Hrun.
  destruct (getKeyBackupVersion env) as [[info|]|e];
    [destruct (isKeyBackupTrusted env info) as [t|e] | |];
    unfold after in Hrun; injection Hrun as _ _ ->; eexists; reflexivity.
Qed.

End Facts.

Import Scenarios.PanelRun MoreScenarios.PanelView.

Lemma resetSecretStorage_failure_is_overwritten_witness :
  error (state (final (resetSecretStorage env aenv loaded))) = false
  /\ LoggerError "Error resetting secret storage" reset_cancelled
     ∈ effects (resetSecretStorage env aenv loaded).
Proof.
  destruct (resetSecretStorage_failure_is_overwritten env aenv loaded reset_cancelled
              eq_refl
              (or_intror (ex_intro _ backup2 (ex_intro _ verdict_new (conj eq_refl eq_refl))))
              eq_refl) as (_ & Herror & _).
  split; [exact Herror |]. cbv. present.
Defined.

Lemma resetSecretStorage_unmounted_stops_witness :
  resetSecretStorage env aenv closed
  = (Fulfilled tt,
     {| unmounted := true; state := apply_patch (patch_error false) (state closed) |},
     [Base (SetState (patch_error false)); AccessSecretStorage true;
      LoggerError "Error resetting secret storage" reset_cancelled]).
Proof.
  exact (resetSecretStorage_unmounted_stops env aenv closed eq_refl).
Defined.

End ActionFacts.
